(** * PE/VC deal explorer (app6.py): loader, filter engine and report builder

    A shallow embedding of the data path of [app6.py]:

    - [load_data] (lines 10-18): the buyer field is split and exploded into
      one row per buyer;
    - the filter of lines 38-42 and the buyer options of line 45;
    - [prepare_excel_summary] (lines 48-122): the 'Buyer Summary' and the
      'Buyer Deal Details' tables and the colour pass over the latter;
    - the per-buyer statistics of the main display (lines 159-175).

    Data frames are lists of records in row order.  A missing cell (NaN, NaT,
    None) is [None].  The float64 deal value is the rational number it
    denotes; a [datetime64] date is its number of nanoseconds since the epoch.
    Characters are code points below 256. *)

From Stdlib Require Import List ZArith QArith Bool Ascii String Lia.
From Stdlib Require Import Sorting.Sorted.
Import ListNotations.

Close Scope Q_scope.
Local Open Scope nat_scope.

(* ================================================================== *)
(** ** Python string operations used by the loader *)

Module PyStr.

(** [str.isspace] on one code point below 256: TAB, LF, VT, FF, CR, the
    separators 0x1c-0x1f, the space, NEL (0x85) and NBSP (0xa0). *)
Definition is_space (c : ascii) : bool :=
  let n := nat_of_ascii c in
  ((9 <=? n) && (n <=? 13)) || ((28 <=? n) && (n <=? 32))
  || (n =? 133) || (n =? 160).

Fixpoint lstrip (s : string) : string :=
  match s with
  | EmptyString => EmptyString
  | String c s' => if is_space c then lstrip s' else s
  end.

Fixpoint rstrip (s : string) : string :=
  match s with
  | EmptyString => EmptyString
  | String c s' =>
      match rstrip s' with
      | EmptyString => if is_space c then EmptyString else String c EmptyString
      | t => String c t
      end
  end.

(** [s.strip()] *)
Definition strip (s : string) : string := rstrip (lstrip s).

(** [s.split(',')]: one more piece than there are commas. *)
Fixpoint split_comma (s : string) : list string :=
  match s with
  | EmptyString => [EmptyString]
  | String c s' =>
      if Ascii.eqb c ","%char then EmptyString :: split_comma s'
      else match split_comma s' with
           | [] => [String c EmptyString]
           | t :: ts => String c t :: ts
           end
  end.

(** Truth value of a Python string: non-empty. *)
Definition truthy (s : string) : bool :=
  match s with EmptyString => false | _ => true end.

(** The first character, if any, is not white space. *)
Definition no_leading_space (s : string) : Prop :=
  match s with
  | EmptyString => True
  | String c _ => is_space c = false
  end.

(** [s[1:]] *)
Definition tail (s : string) : string :=
  match s with EmptyString => EmptyString | String _ s' => s' end.

End PyStr.

(* ================================================================== *)
(** ** Data model *)

Definition ns_per_day : Z := 86400000000000%Z.

(** [pd.to_datetime(d)] for a calendar day [d] (days since the epoch):
    the timestamp of its midnight. *)
Definition to_datetime (day : Z) : Z := (day * ns_per_day)%Z.

(** [strftime('%d-%m-%Y')] prints the calendar day of a timestamp and drops
    the time of day.  The printed text is represented by the day it denotes. *)
Definition strftime (ts : Z) : Z := (ts / ns_per_day)%Z.

(** A row of the source table once lines 12-13 have coerced the date and
    value columns ([errors='coerce'] turns what does not parse into a
    missing value). *)
Record SourceRow := mkSource {
  src_Target_Company_Name : option string;
  src_Date : option Z;
  src_Deal_Value : option Q;
  src_Deal_Type : option string;
  src_Buyers : option string
}.

(** A row of the frame returned by [load_data].  [index] is the label the
    row inherits from its source row ([explode] repeats it). *)
Record Deal := mkDeal {
  index : nat;
  Target_Company_Name : option string;
  Date : option Z;
  Deal_Value : option Q;
  Deal_Type : option string;
  Buyers : option string;
  Buyer_List : option string;
  Formatted_Date : option Z
}.

(* ================================================================== *)
(** ** Data loader (lines 10-18) *)

(** Line 14: [fillna('').astype(str)] then
    [[i.strip() for i in x.split(',') if i.strip()]]. *)
Definition fillna_str (b : option string) : string :=
  match b with Some s => s | None => EmptyString end.

Definition buyer_tokens (x : string) : list string :=
  map PyStr.strip
      (filter (fun i => PyStr.truthy (PyStr.strip i)) (PyStr.split_comma x)).

(** Line 15: [explode] gives one row per list element and, for an empty
    list, one row whose cell is NaN. *)
Definition explode_cell (l : list string) : list (option string) :=
  match l with
  | [] => [None]
  | _ => map Some l
  end.

(** Lines 16-17 on one exploded row: strip the buyer, format the date. *)
Definition expand_row (i : nat) (r : SourceRow) (b : option string) : Deal :=
  {| index := i;
     Target_Company_Name := src_Target_Company_Name r;
     Date := src_Date r;
     Deal_Value := src_Deal_Value r;
     Deal_Type := src_Deal_Type r;
     Buyers := src_Buyers r;
     Buyer_List := option_map PyStr.strip b;
     Formatted_Date := option_map strftime (src_Date r) |}.

Definition explode_row (i : nat) (r : SourceRow) : list Deal :=
  map (expand_row i r) (explode_cell (buyer_tokens (fillna_str (src_Buyers r)))).

Fixpoint load_rows (i : nat) (table : list SourceRow) : list Deal :=
  match table with
  | [] => []
  | r :: rest => explode_row i r ++ load_rows (S i) rest
  end.

Definition load_data (table : list SourceRow) : list Deal := load_rows 0 table.

(** The expanded rows that come from the source row labelled [i]. *)
Definition rows_of (i : nat) (df : list Deal) : list Deal :=
  filter (fun d => index d =? i) df.

(** A row with its derived single-buyer field blanked, to compare rows in
    every other field. *)
Definition without_buyer (d : Deal) : Deal :=
  {| index := index d;
     Target_Company_Name := Target_Company_Name d;
     Date := Date d;
     Deal_Value := Deal_Value d;
     Deal_Type := Deal_Type d;
     Buyers := Buyers d;
     Buyer_List := None;
     Formatted_Date := Formatted_Date d |}.

(* ================================================================== *)
(** ** Filter engine (lines 38-45) *)

Record Criteria := mkCriteria {
  from_date : Z;        (* calendar day from the date picker *)
  to_date : Z;          (* calendar day from the date picker *)
  deal_value : Q        (* minimum deal value *)
}.

(** Element-wise comparisons of a column with a scalar: a missing cell
    compares false. *)
Definition date_ge (d : option Z) (bound : Z) : bool :=
  match d with Some t => (bound <=? t)%Z | None => false end.

Definition date_le (d : option Z) (bound : Z) : bool :=
  match d with Some t => (t <=? bound)%Z | None => false end.

Definition value_ge (v : option Q) (bound : Q) : bool :=
  match v with Some x => Qle_bool bound x | None => false end.

(** The boolean mask of lines 39-41 on one row. *)
Definition mask (c : Criteria) (d : Deal) : bool :=
  date_ge (Date d) (to_datetime (from_date c))
  && date_le (Date d) (to_datetime (to_date c))
  && value_ge (Deal_Value d) (deal_value c).

(** [df[mask]]: a new frame with the selected rows in their order. *)
Definition filter_engine (c : Criteria) (df : list Deal) : list Deal :=
  filter (mask c) df.

(** The two frames the script holds as globals. *)
Record Session := mkSession {
  df : list Deal;
  filtered_df : list Deal
}.

(** Lines 38-42 as a step on the globals: [filtered_df] is bound to the
    selection, [df] is only read. *)
Definition filter_step (c : Criteria) (s : Session) : Session :=
  {| df := df s; filtered_df := filter_engine c (df s) |}.

(** Order preservation: [l1] is [l2] with some rows left out. *)
Inductive subsequence {A : Type} : list A -> list A -> Prop :=
| subseq_nil : subsequence [] []
| subseq_skip x l1 l2 : subsequence l1 l2 -> subsequence l1 (x :: l2)
| subseq_keep x l1 l2 : subsequence l1 l2 -> subsequence (x :: l1) (x :: l2).

(** [Series.unique()]: first occurrences in order of appearance; all
    missing cells count as one value. *)
Definition opt_eqb {A : Type} (eqb : A -> A -> bool) (x y : option A) : bool :=
  match x, y with
  | Some a, Some b => eqb a b
  | None, None => true
  | _, _ => false
  end.

Fixpoint unique_from (seen : list (option string)) (l : list (option string))
  : list (option string) :=
  match l with
  | [] => []
  | x :: rest =>
      if existsb (opt_eqb String.eqb x) seen then unique_from seen rest
      else x :: unique_from (x :: seen) rest
  end.

Definition unique (l : list (option string)) : list (option string) :=
  unique_from [] l.

(** [Series.dropna()] *)
Fixpoint dropna {A : Type} (l : list (option A)) : list A :=
  match l with
  | [] => []
  | Some a :: rest => a :: dropna rest
  | None :: rest => dropna rest
  end.

(** [sorted] on strings: ascending code-point order. *)
Fixpoint insert_str (s : string) (l : list string) : list string :=
  match l with
  | [] => [s]
  | t :: rest => if String.leb s t then s :: l else t :: insert_str s rest
  end.

Definition sorted_str (l : list string) : list string :=
  fold_right insert_str [] l.

(** Line 45: the buyer options. *)
Definition unique_buyers (filtered : list Deal) : list string :=
  sorted_str (dropna (unique (map Buyer_List filtered))).

(* ================================================================== *)
(** ** Column reductions *)

(** [Series.min()] and [Series.max()] skip missing cells; on a column with
    no value they give the missing value. *)
Fixpoint reduce {A : Type} (pick : A -> A -> A) (l : list (option A)) : option A :=
  match l with
  | [] => None
  | None :: rest => reduce pick rest
  | Some a :: rest =>
      match reduce pick rest with
      | None => Some a
      | Some b => Some (pick a b)
      end
  end.

Definition date_min (l : list (option Z)) : option Z := reduce Z.min l.
Definition date_max (l : list (option Z)) : option Z := reduce Z.max l.

Definition qmin (a b : Q) : Q := if Qle_bool a b then a else b.
Definition qmax (a b : Q) : Q := if Qle_bool a b then b else a.

Definition value_min (l : list (option Q)) : option Q := reduce qmin l.
Definition value_max (l : list (option Q)) : option Q := reduce qmax l.

(** [Series.count()]: the number of cells that are not missing. *)
Definition count {A : Type} (l : list (option A)) : nat :=
  List.length (dropna l).

(** Rounding to the nearest integer, ties to even. *)
Definition round_half_even (q : Q) : Z :=
  let n := Qnum q in
  let d := Zpos (Qden q) in
  let f := (n / d)%Z in
  let r2 := (2 * (n mod d))%Z in
  if (r2 <? d)%Z then f
  else if (d <? r2)%Z then (f + 1)%Z
  else if Z.even f then f else (f + 1)%Z.

(** [round(x, 2)] on a Python float, and the format [.2f]: the exact value
    of the double is rounded to two decimals, ties to even. *)
Definition round2 (q : Q) : Q :=
  Qred (Qmake (round_half_even (Qmult q (Qmake 100 1))) 100).

(** [a / (d * 2^x)] for an integer [x] of either sign. *)
Definition scaled (a d x : Z) : Q :=
  Qmake (a * 2 ^ Z.max 0 (- x)) (Z.to_pos (d * 2 ^ Z.max 0 x)).

(** The double nearest to a rational, ties to even: 53 significant bits,
    least exponent -1074.  Overflow is not modelled: the frame holds finite
    values and their hundredfold is finite. *)
Definition fl (q : Q) : Q :=
  let n := Qnum q in
  let d := Zpos (Qden q) in
  if (n =? 0)%Z then Qmake 0 1
  else
    let a := Z.abs n in
    let e0 := (Z.log2 a - Z.log2 d)%Z in
    let e := if Qle_bool (Qmake 1 1) (scaled a d e0) then e0 else (e0 - 1)%Z in
    let p := Z.max (e - 52) (-1074) in
    let m := round_half_even (scaled a d p) in
    Qred (Qmake (Z.sgn n * m * 2 ^ Z.max 0 p) (Z.to_pos (2 ^ Z.max 0 (- p)))).

(** [round(x, 2)] on a [numpy.float64]: the value is multiplied by 100 in
    double arithmetic, rounded to the nearest integer (ties to even) and
    divided by 100.  The quotient, a double, is named by the two-decimal
    number it is nearest to. *)
Definition np_round2 (q : Q) : Q :=
  Qred (Qmake (round_half_even (fl (Qmult q (Qmake 100 1)))) 100).

(* ================================================================== *)
(** ** Report builder: [prepare_excel_summary] (lines 48-122) *)

(** A Python exception aborts the call: [None]. *)
Definition bind {A B : Type} (x : option A) (f : A -> option B) : option B :=
  match x with Some a => f a | None => None end.

Notation "x <- e ;; k" := (bind e (fun x => k))
  (at level 61, e at next level, right associativity).

Fixpoint mapM {A B : Type} (f : A -> option B) (l : list A) : option (list B) :=
  match l with
  | [] => Some []
  | a :: rest => b <- f a ;; bs <- mapM f rest ;; Some (b :: bs)
  end.

(** *** 'Buyer Summary' (lines 49-55) *)

Record SummaryRow := mkSummary {
  Buyer : string;
  Number_of_Deals : nat;
  First_Deal_Date : Z;
  Last_Deal_Date : Z;
  Min_Deal_Value : option Q;
  Max_Deal_Value : option Q
}.

(** The rows of the group keyed [b].  The lambdas of lines 53-54 get the
    minimum and maximum as [numpy.float64] and round them with
    [np_round2]. *)
Definition has_buyer (b : string) (d : Deal) : bool :=
  match Buyer_List d with Some x => String.eqb x b | None => false end.

(** [groupby('Buyer List')]: rows with a missing key belong to no group;
    the keys come out sorted. *)
Definition group_keys (data : list Deal) : list string :=
  sorted_str (dropna (unique (map Buyer_List data))).

(** [x.min().strftime(...)]: the missing date has no [strftime]. *)
Definition strftime_of (d : option Z) : option Z :=
  match d with Some t => Some (strftime t) | None => None end.

Definition agg (b : string) (data : list Deal) : option SummaryRow :=
  let g := filter (has_buyer b) data in
  first <- strftime_of (date_min (map Date g)) ;;
  last <- strftime_of (date_max (map Date g)) ;;
  Some {| Buyer := b;
          Number_of_Deals := count (map Target_Company_Name g);
          First_Deal_Date := first;
          Last_Deal_Date := last;
          Min_Deal_Value :=
            option_map np_round2 (value_min (map Deal_Value g));
          Max_Deal_Value :=
            option_map np_round2 (value_max (map Deal_Value g)) |}.

Definition summary (data : list Deal) : option (list SummaryRow) :=
  mapM (fun b => agg b data) (group_keys data).

(** *** [drop_duplicates(subset=...)]: the first row of every key is kept;
    missing cells are equal to each other. *)

Fixpoint drop_duplicates_from (same : Deal -> Deal -> bool)
    (seen : list Deal) (l : list Deal) : list Deal :=
  match l with
  | [] => []
  | r :: rest =>
      if existsb (same r) seen then drop_duplicates_from same seen rest
      else r :: drop_duplicates_from same (r :: seen) rest
  end.

Definition drop_duplicates (same : Deal -> Deal -> bool) (l : list Deal)
  : list Deal := drop_duplicates_from same [] l.

(** subset = ['Target Company Name', 'Date', 'Deal Value (USD mn)'] *)
Definition same_deal (r1 r2 : Deal) : bool :=
  opt_eqb String.eqb (Target_Company_Name r1) (Target_Company_Name r2)
  && opt_eqb Z.eqb (Date r1) (Date r2)
  && opt_eqb Qeq_bool (Deal_Value r1) (Deal_Value r2).

(** subset = ['Buyer List', 'Target Company Name', 'Date',
    'Deal Value (USD mn)'] (line 58) *)
Definition same_buyer_deal (r1 r2 : Deal) : bool :=
  opt_eqb String.eqb (Buyer_List r1) (Buyer_List r2) && same_deal r1 r2.

(** *** [sort_values('Date')]: ascending, missing dates last.  pandas
    sorts with quicksort and does not promise the order of rows with equal
    dates; the model keeps them in their input order, and no statement
    below depends on the order among equal dates. *)

Definition date_leb (a b : option Z) : bool :=
  match a, b with
  | Some x, Some y => (x <=? y)%Z
  | _, None => true
  | None, Some _ => false
  end.

Fixpoint insert_by_date (r : Deal) (l : list Deal) : list Deal :=
  match l with
  | [] => [r]
  | x :: rest =>
      if date_leb (Date r) (Date x) then r :: l else x :: insert_by_date r rest
  end.

Definition sort_values_Date (l : list Deal) : list Deal :=
  fold_right insert_by_date [] l.

(** *** 'Buyer Deal Details' (lines 61-86) *)

(** A cell of the details sheet.  A missing value is written as an empty
    cell. *)
Inductive Cell :=
| CDate (day : Z)
| CText (s : string)
| CNum (q : Q)
| CEmpty.

Definition cell_of {A : Type} (mk : A -> Cell) (x : option A) : Cell :=
  match x with Some a => mk a | None => CEmpty end.

(** Lines 66-70: what one row adds to [deal_info]. *)
Definition triple (row : Deal) : list Cell :=
  [ cell_of CDate (Formatted_Date row);
    cell_of CText (Target_Company_Name row);
    cell_of CNum (option_map round2 (Deal_Value row)) ].

(** [data['Buyer List'] == buyer]: a missing cell equals nothing, not even
    a missing [buyer]. *)
Definition buyer_is (buyer : option string) (d : Deal) : bool :=
  match buyer, Buyer_List d with
  | Some b, Some x => String.eqb x b
  | _, _ => false
  end.

(** Lines 63-70 for one buyer. *)
Definition deal_info (data : list Deal) (buyer : option string) : list Cell :=
  flat_map triple (sort_values_Date (filter (buyer_is buyer) data)).

(** Lines 61-71: the dictionary in insertion order. *)
Definition deal_dict (data : list Deal) : list (option string * list Cell) :=
  map (fun buyer => (buyer, deal_info data buyer))
      (unique (map Buyer_List data)).

(** Line 74: [DataFrame.from_dict(..., orient='index')] makes one row per
    entry, as wide as the longest list; shorter rows end in missing cells. *)
Definition frame_width (d : list (option string * list Cell)) : nat :=
  list_max (map (fun e => List.length (snd e)) d).

Definition pad (w : nat) (cells : list Cell) : list Cell :=
  cells ++ repeat CEmpty (w - List.length cells).

Definition from_dict (d : list (option string * list Cell))
  : list (option string * list Cell) :=
  map (fun e => (fst e, pad (frame_width d) (snd e))) d.

(** Column headers of the details sheet. *)
Inductive Header :=
| HBuyerName
| HDate (i : nat)            (* f"Date {i}" *)
| HDeal (i : nat)            (* f"Deal {i}" *)
| HDealValue (i : nat).      (* f"Deal Value {i} (in Mn USD)" *)

(** Lines 79-84. *)
Definition col_headers (shape1 : nat) : list Header :=
  let num_deal_columns := shape1 - 1 in
  let num_deals := num_deal_columns / 3 in
  HBuyerName
    :: flat_map (fun i => [HDate i; HDeal i; HDealValue i]) (seq 1 num_deals).

Record DetailsSheet := mkDetails {
  columns : list Header;
  rows : list (option string * list Cell)
}.

(** Lines 74-86.  The assignment to [columns] of line 86 raises when the
    number of headers is not the number of columns. *)
Definition deals_df (data : list Deal) : option DetailsSheet :=
  let d := deal_dict data in
  let body := from_dict d in
  let shape1 := 1 + frame_width d in
  let headers := col_headers shape1 in
  if List.length headers =? shape1
  then Some {| columns := headers; rows := body |}
  else None.

(** *** Colour pass over the details sheet (lines 111-119) *)

Definition light_colors : list string :=
  ["#f2f2f2"; "#e6f7ff"; "#f9f9f9"; "#eafbea"]%string.

(** [range(start, stop, step)] for a positive step. *)
Fixpoint range_from (fuel start stop step : nat) : list nat :=
  match fuel with
  | 0 => []
  | S fuel' =>
      if start <? stop then start :: range_from fuel' (start + step) stop step
      else []
  end.

Definition range (start stop step : nat) : list nat :=
  range_from stop start stop step.

(** The index of line 114 as Python reads it: [//] binds tighter than [-],
    so [i-1// 3] is [i - (1 // 3)]. *)
Definition color_index (i : nat) : nat :=
  (i - (1 / 3)) mod List.length light_colors.

(** One [PatternFill] and the sheet columns (1-based) it is applied to, in
    every row from the second on. *)
Record Fill := mkFill {
  min_col : nat;
  max_col : nat;
  start_color : string
}.

Definition fill_at (i : nat) : Fill :=
  {| min_col := i + 1;
     max_col := i + 3;
     start_color := PyStr.tail (nth (color_index i) light_colors EmptyString) |}.

Definition fills (shape1 : nat) : list Fill :=
  map fill_at (range 1 (shape1 - 1) 3).

(** The sheet columns (1-based) of the deal-triple group with 0-based slot
    index [j]: column 1 holds the buyer name. *)
Definition slot_min_col (j : nat) : nat := 3 * j + 2.
Definition slot_max_col (j : nat) : nat := 3 * j + 4.

(** The fill a sheet column ends up with: the last one written to it. *)
Definition fill_of_column (fs : list Fill) (col : nat) : option string :=
  match filter (fun f => (min_col f <=? col) && (col <=? max_col f)) (rev fs) with
  | f :: _ => Some (start_color f)
  | [] => None
  end.

(** The colour the claim about the palette assigns to slot [j]. *)
Definition palette_color (j : nat) : string :=
  PyStr.tail (nth (j mod List.length light_colors) light_colors EmptyString).

(** *** The workbook *)

Record Workbook := mkWorkbook {
  Buyer_Summary : list SummaryRow;
  Buyer_Deal_Details : DetailsSheet;
  Details_fills : list Fill
}.

(** The two frames the function builds and the fills it applies.  The
    writer of lines 90-92 refuses a frame that is too large for a sheet:
    that check is [to_excel] below, and [excel_output] is the call as a
    whole. *)
Definition prepare_excel_summary (data : list Deal) : option Workbook :=
  s <- summary data ;;
  let data := drop_duplicates same_buyer_deal data in
  d <- deals_df data ;;
  Some {| Buyer_Summary := s;
          Buyer_Deal_Details := d;
          Details_fills := fills (List.length (columns d)) |}.

(** The 'Buyer Summary' row of a buyer. *)
Definition summary_row (wb : Workbook) (b : string) : option SummaryRow :=
  find (fun r => String.eqb (Buyer r) b) (Buyer_Summary wb).

(** The 'Buyer Deal Details' row of a buyer. *)
Definition details_row (wb : Workbook) (b : string) : option (list Cell) :=
  option_map snd
    (find (fun e => opt_eqb String.eqb (fst e) (Some b))
          (rows (Buyer_Deal_Details wb))).

(** The number of deals a buyer holds once exact duplicates are dropped, and
    the largest such number. *)
Definition deals_held (data : list Deal) (b : string) : nat :=
  List.length (filter (has_buyer b) (drop_duplicates same_buyer_deal data)).

Definition max_deals (data : list Deal) : nat :=
  list_max (map (deals_held data) (dropna (map Buyer_List data))).

(* ================================================================== *)
(** ** Presentation layer: per-buyer statistics (lines 159-175) *)

Record BuyerStats := mkStats {
  Total_Deals : nat;
  First_Investment : Z;
  Most_Recent_Investment : Z;
  Shown_Min_Deal_Value : option Q;     (* printed with two decimals *)
  Shown_Max_Deal_Value : option Q      (* printed with two decimals *)
}.

Inductive Rendered :=
| NoDealsFound                         (* st.warning, line 166 *)
| Stats (s : BuyerStats)
| Raised.                              (* strftime on a missing date *)

(** Lines 162-163. *)
Definition buyer_df (filtered : list Deal) (buyer : string) : list Deal :=
  sort_values_Date
    (drop_duplicates same_deal (filter (buyer_is (Some buyer)) filtered)).

Definition render_buyer (filtered : list Deal) (buyer : string) : Rendered :=
  let bdf := buyer_df filtered buyer in
  match bdf with
  | [] => NoDealsFound
  | _ =>
      match strftime_of (date_min (map Date bdf)),
            strftime_of (date_max (map Date bdf)) with
      | Some first, Some last =>
          Stats {| Total_Deals := List.length bdf;
                   First_Investment := first;
                   Most_Recent_Investment := last;
                   Shown_Min_Deal_Value :=
                     option_map round2 (value_min (map Deal_Value bdf));
                   Shown_Max_Deal_Value :=
                     option_map round2 (value_max (map Deal_Value bdf)) |}
      | _, _ => Raised
      end
  end.

(** The statistics of a 'Buyer Summary' row, for comparison with the ones
    above. *)
Definition stats_of_summary (r : SummaryRow) : BuyerStats :=
  {| Total_Deals := Number_of_Deals r;
     First_Investment := First_Deal_Date r;
     Most_Recent_Investment := Last_Deal_Date r;
     Shown_Min_Deal_Value := Min_Deal_Value r;
     Shown_Max_Deal_Value := Max_Deal_Value r |}.

(* ================================================================== *)
(** ** Sample data *)

Module Sample.
Local Open Scope string_scope.

Definition day (n : Z) : Z := to_datetime n.

(** A deal whose buyer cell holds separators only. *)
Definition separators_only : SourceRow :=
  mkSource (Some "Acme") (Some (day 10)) (Some (Qmake 5 1)) (Some "PE")
           (Some " , ").

(** A deal whose buyer cell is blank. *)
Definition blank_buyer : SourceRow :=
  mkSource (Some "Acme") (Some (day 10)) (Some (Qmake 5 1)) (Some "PE") None.

(** A deal with three buyers. *)
Definition three_buyers : SourceRow :=
  mkSource (Some "Acme") (Some (day 10)) (Some (Qmake 5 1)) (Some "PE")
           (Some "Alpha, Beta ,Gamma").

(** A deal whose buyer cell lists the same buyer twice. *)
Definition listed_twice : SourceRow :=
  mkSource (Some "Acme") (Some (day 10)) (Some (Qmake 5 1)) (Some "PE")
           (Some "Alpha, Alpha").

(** A deal without a target company name. *)
Definition unnamed_target : SourceRow :=
  mkSource None (Some (day 11)) (Some (Qmake 7 1)) (Some "VC") (Some "Alpha").

Definition deal (target : string) (d : Z) (v : Q) (buyers : string) : SourceRow :=
  mkSource (Some target) (Some (day d)) (Some v) (Some "PE") (Some buyers).

(** One buyer with deals valued 2.5, 7.0 and 3.25 on three successive days. *)
Definition three_deals : list SourceRow :=
  [ deal "T1" 1 (Qmake 5 2) "Alpha";
    deal "T2" 2 (Qmake 7 1) "Alpha";
    deal "T3" 3 (Qmake 13 4) "Alpha" ].

(** Buyers holding 1, 3 and 5 deals. *)
Definition one_three_five : list SourceRow :=
  [ deal "T1" 5 (Qmake 1 1) "One, Three, Five";
    deal "T2" 4 (Qmake 2 1) "Three, Five";
    deal "T3" 3 (Qmake 3 1) "Five , Three";
    deal "T4" 2 (Qmake 4 1) "Five";
    deal "T5" 1 (Qmake 5 1) "Five" ].

(** One buyer with deals valued 2.675 and 0.015, read as the doubles
    nearest to them. *)
Definition half_cents : list SourceRow :=
  [ deal "T1" 1 (fl (Qmake 2675 1000)) "Alpha";
    deal "T2" 2 (fl (Qmake 15 1000)) "Alpha" ].

(** Every deal of the samples passes these criteria. *)
Definition wide_open : Criteria := mkCriteria 0 100 (Qmake 0 1).

Definition in_range (target : string) (d : Z) (hours : Z) : Deal :=
  {| index := 0;
     Target_Company_Name := Some target;
     Date := Some (day d + hours * 3600000000000)%Z;
     Deal_Value := Some (Qmake 5 1);
     Deal_Type := None;
     Buyers := Some "Alpha";
     Buyer_List := Some "Alpha";
     Formatted_Date := Some d |}.

End Sample.

(** The filtered set the script computes from a source table. *)
Definition filtered_set (c : Criteria) (table : list SourceRow) : list Deal :=
  filter_engine c (load_data table).

(** One emitted triple of a row whose date and value are present. *)
Definition triple_cells (t : Z * option string * Q) : list Cell :=
  let '(d, target, v) := t in [CDate d; cell_of CText target; CNum v].

Definition triple_day (t : Z * option string * Q) : Z := fst (fst t).

(** What holds of every row of a filtered set: date and value are present
    and the formatted date is the one of the date. *)
Definition complete_row (d : Deal) : Prop :=
  exists t v,
    Date d = Some t /\ Deal_Value d = Some v
    /\ Formatted_Date d = Some (strftime t).

(** The triple a complete row is emitted as. *)
Definition row_triple (d : Deal) : Z * option string * Q :=
  (match Formatted_Date d with Some x => x | None => 0%Z end,
   Target_Company_Name d,
   match Deal_Value d with Some v => round2 v | None => Qmake 0 1 end).

(** The deals of a buyer in a frame, and the extremes of their dates and
    values. *)
Definition group (b : string) (data : list Deal) : list Deal :=
  filter (has_buyer b) data.

Definition earliest (g : list Deal) (t : Z) : Prop :=
  In (Some t) (map Date g)
  /\ forall t', In (Some t') (map Date g) -> (t <= t')%Z.

Definition latest (g : list Deal) (t : Z) : Prop :=
  In (Some t) (map Date g)
  /\ forall t', In (Some t') (map Date g) -> (t' <= t)%Z.

Definition smallest (g : list Deal) (v : Q) : Prop :=
  In (Some v) (map Deal_Value g)
  /\ forall v', In (Some v') (map Deal_Value g) -> Qle v v'.

Definition largest (g : list Deal) (v : Q) : Prop :=
  In (Some v) (map Deal_Value g)
  /\ forall v', In (Some v') (map Deal_Value g) -> Qle v' v.

(** The order [sort_values('Date')] establishes between neighbours. *)
Definition by_date (a b : Deal) : Prop := date_leb (Date a) (Date b) = true.

(** The rows of a frame that carry a target company name. *)
Definition named (g : list Deal) : list Deal :=
  filter (fun d => match Target_Company_Name d with
                   | Some _ => true
                   | None => false
                   end) g.

(* ================================================================== *)
(** ** Sidebar defaults (lines 25-34) *)

(** [Timestamp.date()]: the calendar day of a timestamp. *)
Definition date_of (ts : Z) : Z := (ts / ns_per_day)%Z.

Definition min_date (frame : list Deal) : option Z :=
  option_map date_of (date_min (map Date frame)).

Definition max_date (frame : list Deal) : option Z :=
  option_map date_of (date_max (map Date frame)).

Definition min_val (frame : list Deal) : option Q :=
  value_min (map Deal_Value frame).

(** The criteria the widgets hold before the user touches them: the two
    date pickers start at [min_date] and [max_date], the number input at
    [min_val].  [None]: a column holds no value and there is no default to
    start from. *)
Definition default_criteria (frame : list Deal) : option Criteria :=
  match min_date frame, max_date frame, min_val frame with
  | Some a, Some b, Some v => Some (mkCriteria a b v)
  | _, _, _ => None
  end.

(** A row whose date and value cells are both present. *)
Definition dated_and_valued (d : Deal) : bool :=
  match Date d, Deal_Value d with
  | Some _, Some _ => true
  | _, _ => false
  end.

(* ================================================================== *)
(** ** Writing the sheets (lines 90-92) *)

(** [DataFrame.to_excel] raises [ValueError] for a frame with more rows or
    more columns than a sheet can hold. *)
Definition max_rows : Z := 1048576%Z.
Definition max_cols : Z := 16384%Z.

Definition sheet_fits (num_rows num_cols : nat) : bool :=
  (Z.of_nat num_rows <=? max_rows)%Z && (Z.of_nat num_cols <=? max_cols)%Z.

(** The summary frame has six columns. *)
Definition to_excel (wb : Workbook) : option Workbook :=
  if sheet_fits (List.length (Buyer_Summary wb)) 6
     && sheet_fits (List.length (rows (Buyer_Deal_Details wb)))
                   (List.length (columns (Buyer_Deal_Details wb)))
  then Some wb
  else None.

(** The call of line 143: the frames are built, then written. *)
Definition excel_output (filtered : list Deal) : option Workbook :=
  wb <- prepare_excel_summary filtered ;; to_excel wb.

(* ================================================================== *)
(** ** Export button (lines 130-151) *)

Inductive Export :=
| NotOffered                 (* the filtered frame is empty: no button *)
| Download (wb : Workbook)   (* the file handed to the download button *)
| ExportRaised.              (* the call of line 143 raised *)

(** What a click on the button gives. *)
Definition export_on_click (filtered : list Deal) : Export :=
  match filtered with
  | [] => NotOffered
  | _ =>
      match excel_output filtered with
      | Some wb => Download wb
      | None => ExportRaised
      end
  end.

(* ================================================================== *)
(** ** Main display (lines 156-190) *)

(** [str(row['Buyer (s)'])]: a missing cell prints as [nan]. *)
Definition str_of_cell (b : option string) : string :=
  match b with Some s => s | None => "nan"%string end.

(** Line 183: the pieces of the raw buyer cell that do not trim to the
    buyer on display.  The pieces themselves are kept untrimmed. *)
Definition co_investors (row : Deal) (buyer : string) : list string :=
  filter (fun b => negb (String.eqb (PyStr.strip b) buyer))
         (PyStr.split_comma (str_of_cell (Buyers row))).

(** [sep.join(l)] *)
Fixpoint join (sep : string) (l : list string) : string :=
  match l with
  | [] => EmptyString
  | [x] => x
  | x :: rest => (x ++ sep ++ join sep rest)%string
  end.

Record CoInvestorRow := mkCoRow {
  co_Date : option Z;
  co_Target : option string;
  co_Investors : string;
  co_Deal_Type : option string
}.

(** Lines 181-189. *)
Definition co_data (bdf : list Deal) (buyer : string) : list CoInvestorRow :=
  map (fun row =>
         {| co_Date := Formatted_Date row;
            co_Target := Target_Company_Name row;
            co_Investors := join ", " (co_investors row buyer);
            co_Deal_Type := Deal_Type row |})
      bdf.

Inductive Display :=
| PleaseSelect                              (* st.info, line 157 *)
| Views (l : list (string * Rendered)).     (* one block per selected buyer *)

Definition main_display (filtered : list Deal) (selected_buyers : list string)
  : Display :=
  match selected_buyers with
  | [] => PleaseSelect
  | _ => Views (map (fun buyer => (buyer, render_buyer filtered buyer))
                    selected_buyers)
  end.

(** A comma occurs in the string. *)
Fixpoint has_comma (s : string) : bool :=
  match s with
  | EmptyString => false
  | String c s' => Ascii.eqb c ","%char || has_comma s'
  end.

(** The last character, if any, is not white space. *)
Definition no_trailing_space (s : string) : Prop :=
  PyStr.rstrip s = s.

(* ================================================================== *)
(** * Properties of the loader *)

Section StripFacts.
Import PyStr.

Lemma lstrip_no_leading_space s : no_leading_space (lstrip s).
Proof.
  induction s as [|c s IH]; simpl; [exact I|].
  destruct (is_space c) eqn:E; [exact IH | exact E].
Qed.

Lemma lstrip_fixed s : no_leading_space s -> lstrip s = s.
Proof.
  destruct s as [|c s]; simpl; [reflexivity|].
  intros ->. reflexivity.
Qed.

Lemma rstrip_no_leading_space s :
  no_leading_space s -> no_leading_space (rstrip s).
Proof.
  destruct s as [|c s]; simpl; [auto|].
  intros H. destruct (rstrip s); [rewrite H|]; exact H.
Qed.

Lemma rstrip_idempotent s : rstrip (rstrip s) = rstrip s.
Proof.
  induction s as [|c s IH]; simpl; [reflexivity|].
  destruct (rstrip s) as [|a t] eqn:E.
  - destruct (is_space c) eqn:Ec; simpl; [reflexivity|].
    rewrite Ec. reflexivity.
  - change (rstrip (String c (String a t)))
      with (match rstrip (String a t) with
            | EmptyString =>
                if is_space c then EmptyString else String c EmptyString
            | u => String c u
            end).
    rewrite IH. reflexivity.
Qed.

Lemma strip_idempotent s : strip (strip s) = strip s.
Proof.
  unfold strip.
  rewrite (lstrip_fixed (rstrip (lstrip s))).
  - apply rstrip_idempotent.
  - apply rstrip_no_leading_space, lstrip_no_leading_space.
Qed.

End StripFacts.

Lemma buyer_tokens_stripped x :
  map PyStr.strip (buyer_tokens x) = buyer_tokens x.
Proof.
  unfold buyer_tokens. rewrite map_map.
  apply map_ext. intros s. apply strip_idempotent.
Qed.

Lemma NoDup_map_inj {A B : Type} (f : A -> B) (l : list A) :
  (forall x y, f x = f y -> x = y) -> NoDup l -> NoDup (map f l).
Proof.
  intros Hinj H. induction H as [|a l Hn Hnd IH]; simpl; constructor.
  - rewrite in_map_iff. intros [y [Hy Hin]].
    apply Hinj in Hy. subst y. contradiction.
  - exact IH.
Qed.

Lemma explode_row_index i r d : In d (explode_row i r) -> index d = i.
Proof.
  unfold explode_row. rewrite in_map_iff.
  intros [b [<- _]]. reflexivity.
Qed.

Lemma load_rows_index_ge table :
  forall k d, In d (load_rows k table) -> k <= index d.
Proof.
  induction table as [|r rest IH]; simpl; intros k d H; [contradiction|].
  apply in_app_or in H. destruct H as [H|H].
  - apply explode_row_index in H. lia.
  - apply IH in H. lia.
Qed.

Lemma rows_of_all i l :
  (forall d, In d l -> index d = i) -> rows_of i l = l.
Proof.
  unfold rows_of. induction l as [|d l IH]; simpl; intros H; [reflexivity|].
  rewrite (H d (or_introl eq_refl)), Nat.eqb_refl.
  f_equal. apply IH. intros d' Hd'. apply H. now right.
Qed.

Lemma rows_of_none i l :
  (forall d, In d l -> index d <> i) -> rows_of i l = [].
Proof.
  unfold rows_of. induction l as [|d l IH]; simpl; intros H; [reflexivity|].
  destruct (Nat.eqb_spec (index d) i) as [E|_].
  - exfalso. apply (H d); auto.
  - apply IH. intros d' Hd'. apply H. now right.
Qed.

Lemma rows_of_app i l1 l2 : rows_of i (l1 ++ l2) = rows_of i l1 ++ rows_of i l2.
Proof. unfold rows_of. apply filter_app. Qed.

(** The rows labelled with a source row are the rows it explodes into. *)
Lemma rows_of_load_rows table :
  forall k j r,
    nth_error table j = Some r ->
    rows_of (k + j) (load_rows k table) = explode_row (k + j) r.
Proof.
  induction table as [|r0 rest IH]; intros k j r H.
  - destruct j; discriminate.
  - simpl. rewrite rows_of_app. destruct j as [|j]; simpl in H.
    + injection H as ->. rewrite Nat.add_0_r.
      rewrite rows_of_all by (intros d Hd; now apply explode_row_index in Hd).
      rewrite rows_of_none; [apply app_nil_r|].
      intros d Hd. apply load_rows_index_ge in Hd. lia.
    + rewrite rows_of_none.
      * simpl. replace (k + S j) with (S k + j) by lia. now apply IH.
      * intros d Hd. apply explode_row_index in Hd. lia.
Qed.

Lemma rows_of_load_data table i r :
  nth_error table i = Some r ->
  rows_of i (load_data table) = explode_row i r.
Proof. intros H. apply (rows_of_load_rows table 0 i r H). Qed.

Lemma explode_row_buyers i r :
  map Buyer_List (explode_row i r)
  = explode_cell (buyer_tokens (fillna_str (src_Buyers r))).
Proof.
  unfold explode_row. rewrite map_map. simpl.
  unfold explode_cell.
  destruct (buyer_tokens (fillna_str (src_Buyers r))) as [|t ts] eqn:E.
  - reflexivity.
  - rewrite <- E. rewrite map_map. simpl.
    rewrite <- (buyer_tokens_stripped (fillna_str (src_Buyers r))) at 2.
    rewrite map_map. reflexivity.
Qed.

(** C2 as stated fails: a deal whose buyer cell holds separators only
    yields no token, and [load_data] still returns a row for it. *)
Lemma load_data_keeps_tokenless_row :
  buyer_tokens (fillna_str (src_Buyers Sample.separators_only)) = []
  /\ rows_of 0 (load_data [Sample.separators_only])
     = [expand_row 0 Sample.separators_only None]
  /\ rows_of 0 (load_data [Sample.separators_only]) <> [].
Proof. repeat split; try reflexivity. discriminate. Qed.

(** C2, amended: a source row whose buyer string splits into zero tokens
    is kept as exactly one expanded row; that row has no buyer (its buyer
    cell is missing) and belongs to no buyer's group. *)
Theorem load_data_tokenless_row table i r :
  nth_error table i = Some r ->
  buyer_tokens (fillna_str (src_Buyers r)) = [] ->
  rows_of i (load_data table) = [expand_row i r None]
  /\ Buyer_List (expand_row i r None) = None
  /\ (forall b, has_buyer b (expand_row i r None) = false)
  /\ (forall b, buyer_is b (expand_row i r None) = false).
Proof.
  intros Hnth Htok. rewrite (rows_of_load_data _ _ _ Hnth).
  unfold explode_row. rewrite Htok. simpl.
  repeat split; try reflexivity.
  intros [b|]; reflexivity.
Qed.

Lemma load_data_tokenless_row_witness :
  nth_error [Sample.three_buyers; Sample.separators_only] 1
    = Some Sample.separators_only
  /\ rows_of 1 (load_data [Sample.three_buyers; Sample.separators_only])
     = [expand_row 1 Sample.separators_only None].
Proof.
  split; [reflexivity|].
  apply (load_data_tokenless_row
           [Sample.three_buyers; Sample.separators_only] 1
           Sample.separators_only); reflexivity.
Defined.

(** C6 as stated fails at k = 0: a blank buyer cell yields zero tokens and
    one expanded row. *)
Lemma load_data_blank_buyer_one_row :
  NoDup (buyer_tokens (fillna_str (src_Buyers Sample.blank_buyer)))
  /\ List.length (buyer_tokens (fillna_str (src_Buyers Sample.blank_buyer))) = 0
  /\ List.length (rows_of 0 (load_data [Sample.blank_buyer])) = 1.
Proof. repeat split; try reflexivity. constructor. Qed.

(** C6, amended: for every original deal whose raw buyer string yields
    k >= 1 distinct non-empty trimmed tokens, [load_data] produces exactly
    k expanded rows for that deal, one per token in order, pairwise
    different in the buyer field and identical in every other field. *)
Theorem load_data_expansion table i r k :
  nth_error table i = Some r ->
  NoDup (buyer_tokens (fillna_str (src_Buyers r))) ->
  List.length (buyer_tokens (fillna_str (src_Buyers r))) = k ->
  1 <= k ->
  List.length (rows_of i (load_data table)) = k
  /\ map Buyer_List (rows_of i (load_data table))
     = map Some (buyer_tokens (fillna_str (src_Buyers r)))
  /\ NoDup (map Buyer_List (rows_of i (load_data table)))
  /\ (forall d, In d (rows_of i (load_data table)) ->
        without_buyer d = expand_row i r None)
  /\ (forall d d', In d (rows_of i (load_data table)) ->
        In d' (rows_of i (load_data table)) ->
        without_buyer d = without_buyer d').
Proof.
  intros Hnth Hnd Hlen Hk.
  rewrite (rows_of_load_data _ _ _ Hnth).
  assert (Hb : map Buyer_List (explode_row i r)
               = map Some (buyer_tokens (fillna_str (src_Buyers r)))).
  { rewrite explode_row_buyers. unfold explode_cell.
    destruct (buyer_tokens (fillna_str (src_Buyers r))); [simpl in *; lia|].
    reflexivity. }
  assert (Hw : forall d, In d (explode_row i r) ->
                         without_buyer d = expand_row i r None).
  { intros d Hd. unfold explode_row in Hd. apply in_map_iff in Hd.
    destruct Hd as [b [<- _]]. reflexivity. }
  repeat split.
  - rewrite <- (length_map Buyer_List), Hb, length_map. exact Hlen.
  - exact Hb.
  - rewrite Hb. apply NoDup_map_inj; [|exact Hnd].
    intros x y H. now injection H.
  - exact Hw.
  - intros d d' Hd Hd'. rewrite (Hw d Hd), (Hw d' Hd'). reflexivity.
Qed.

Lemma load_data_expansion_witness :
  List.length (rows_of 0 (load_data [Sample.three_buyers])) = 3
  /\ map Buyer_List (rows_of 0 (load_data [Sample.three_buyers]))
     = [Some "Alpha"; Some "Beta"; Some "Gamma"]%string.
Proof.
  destruct (load_data_expansion [Sample.three_buyers] 0 Sample.three_buyers 3)
    as [H1 [H2 _]].
  - reflexivity.
  - vm_compute. repeat constructor; simpl; intuition discriminate.
  - reflexivity.
  - lia.
  - split; [exact H1 | exact H2].
Defined.

(* ================================================================== *)
(** * Properties of the filter engine *)

Lemma ns_per_day_pos : (0 < ns_per_day)%Z.
Proof. reflexivity. Qed.

Lemma to_datetime_le a b : (to_datetime a <= to_datetime b)%Z <-> (a <= b)%Z.
Proof. unfold to_datetime, ns_per_day. lia. Qed.

Lemma strftime_to_datetime day : strftime (to_datetime day) = day.
Proof. unfold strftime, to_datetime. apply Z.div_mul. discriminate. Qed.

Lemma strftime_monotone a b : (a <= b)%Z -> (strftime a <= strftime b)%Z.
Proof. intros H. apply Z.div_le_mono; [exact ns_per_day_pos | exact H]. Qed.

Lemma mask_true c d :
  mask c d = true <->
  exists t v,
    Date d = Some t
    /\ (to_datetime (from_date c) <= t <= to_datetime (to_date c))%Z
    /\ Deal_Value d = Some v
    /\ Qle (deal_value c) v.
Proof.
  unfold mask, date_ge, date_le, value_ge.
  rewrite !andb_true_iff. split.
  - destruct (Date d) as [t|]; [|intros [[H _] _]; discriminate].
    destruct (Deal_Value d) as [v|]; [|intros [_ H]; discriminate].
    intros [[H1 H2] H3]. exists t, v.
    apply Z.leb_le in H1. apply Z.leb_le in H2. apply Qle_bool_iff in H3.
    repeat split; assumption.
  - intros [t [v [-> [[H1 H2] [-> H3]]]]].
    repeat split; [now apply Z.leb_le | now apply Z.leb_le
                   | now apply Qle_bool_iff].
Qed.



Lemma filter_idempotent {A : Type} (f : A -> bool) (l : list A) :
  filter f (filter f l) = filter f l.
Proof.
  induction l as [|a l IH]; simpl; [reflexivity|].
  destruct (f a) eqn:E; simpl; [rewrite E, IH|]; auto.
Qed.

Lemma filter_subsequence {A : Type} (f : A -> bool) (l : list A) :
  subsequence (filter f l) l.
Proof.
  induction l as [|a l IH]; simpl; [constructor|].
  destruct (f a); now constructor.
Qed.

(** C10: the filter is idempotent, keeps the rows it selects in their input
    order, and the step that computes it leaves the loaded frame as it
    was. *)
Theorem filter_engine_pure c s :
  filter_engine c (filter_engine c (df s)) = filter_engine c (df s)
  /\ subsequence (filter_engine c (df s)) (df s)
  /\ df (filter_step c s) = df s
  /\ filtered_df (filter_step c s) = filter_engine c (df s)
  /\ filter_step c (filter_step c s) = filter_step c s.
Proof.
  repeat split.
  - apply filter_idempotent.
  - apply filter_subsequence.
Qed.

(* ================================================================== *)
(** * The colour pass *)

Lemma range_from_slots n :
  forall fuel k,
    n <= fuel ->
    range_from fuel (3 * k + 1) (3 * (k + n)) 3
    = map (fun j => 3 * j + 1) (seq k n).
Proof.
  induction n as [|n IH]; intros fuel k Hf.
  - destruct fuel; cbn [range_from seq map]; [reflexivity|].
    destruct (Nat.ltb_spec (3 * k + 1) (3 * (k + 0))); [lia | reflexivity].
  - destruct fuel as [|fuel]; [lia|].
    cbn [range_from seq map].
    destruct (Nat.ltb_spec (3 * k + 1) (3 * (k + S n))); [|lia].
    f_equal.
    replace (3 * k + 1 + 3) with (3 * S k + 1) by lia.
    replace (3 * (k + S n)) with (3 * (S k + n)) by lia.
    apply IH. lia.
Qed.

(** The loop of line 113 visits every deal-triple group once: slot [j] is
    visited with [i = 3 * j + 1]. *)
Lemma fills_slots m :
  fills (1 + 3 * m) = map (fun j => fill_at (3 * j + 1)) (seq 0 m).
Proof.
  unfold fills, range.
  replace (1 + 3 * m - 1) with (3 * m) by lia.
  pose proof (range_from_slots m (3 * m) 0) as H.
  change (3 * 0 + 1) with 1 in H. change (0 + m) with m in H.
  rewrite H by lia.
  rewrite map_map. reflexivity.
Qed.

(** The colour line 114 picks for slot [j] is entry [(3 * j + 1) mod 4] of
    the palette. *)
Lemma fill_at_slot j :
  fill_at (3 * j + 1)
  = {| min_col := slot_min_col j;
       max_col := slot_max_col j;
       start_color :=
         PyStr.tail (nth ((3 * j + 1) mod 4) light_colors EmptyString) |}.
Proof.
  unfold fill_at, slot_min_col, slot_max_col, color_index. simpl (1 / 3).
  rewrite Nat.sub_0_r. f_equal; lia.
Qed.

(** C8 at slot 0: in a details sheet with one deal-triple group the pass
    fills the three columns of the group with the second colour of the
    palette, where the claim has the first. *)
Theorem color_pass_first_slot :
  fills 4 = [ {| min_col := 2; max_col := 4; start_color := "e6f7ff" |} ]
  /\ fill_of_column (fills 4) (slot_min_col 0) = Some "e6f7ff"%string
  /\ fill_of_column (fills 4) (slot_max_col 0) = Some "e6f7ff"%string
  /\ palette_color 0 = "f2f2f2"%string
  /\ color_index 1 = 1.
Proof. repeat split. Qed.

(* ================================================================== *)
(** * Duplicated rows in the export and in the per-buyer view *)

(** C1 on a deal whose buyer cell lists one buyer twice: the details row
    holds the deal once, and so does the export of the input without its
    duplicate, but the summary counts two deals where the export of the
    input without its duplicate counts one. *)
Theorem prepare_excel_summary_counts_duplicates :
  let data := filtered_set Sample.wide_open [Sample.listed_twice] in
  List.length data = 2
  /\ List.length (drop_duplicates same_buyer_deal data) = 1
  /\ exists wb wb',
       prepare_excel_summary data = Some wb
       /\ prepare_excel_summary (drop_duplicates same_buyer_deal data) = Some wb'
       /\ option_map Number_of_Deals (summary_row wb "Alpha") = Some 2
       /\ option_map Number_of_Deals (summary_row wb' "Alpha") = Some 1
       /\ details_row wb "Alpha"
          = Some [CDate 10; CText "Acme"; CNum (Qmake 5 1)]
       /\ details_row wb' "Alpha" = details_row wb "Alpha".
Proof.
  cbv zeta. split; [reflexivity|]. split; [reflexivity|].
  eexists. eexists.
  split; [vm_compute; reflexivity|].
  split; [vm_compute; reflexivity|].
  repeat split.
Qed.

(** C3 on the same deal: the per-buyer view shows one deal and the 'Buyer
    Summary' row of the same filtered set shows two. *)
Theorem render_buyer_differs_from_summary :
  let data := filtered_set Sample.wide_open [Sample.listed_twice] in
  render_buyer data "Alpha"
  = Stats {| Total_Deals := 1;
             First_Investment := 10;
             Most_Recent_Investment := 10;
             Shown_Min_Deal_Value := Some (Qmake 5 1);
             Shown_Max_Deal_Value := Some (Qmake 5 1) |}
  /\ exists wb,
       prepare_excel_summary data = Some wb
       /\ option_map stats_of_summary (summary_row wb "Alpha")
          = Some {| Total_Deals := 2;
                    First_Investment := 10;
                    Most_Recent_Investment := 10;
                    Shown_Min_Deal_Value := Some (Qmake 5 1);
                    Shown_Max_Deal_Value := Some (Qmake 5 1) |}.
Proof.
  cbv zeta. split; [vm_compute; reflexivity|].
  eexists. split; [vm_compute; reflexivity|]. reflexivity.
Qed.

(* ================================================================== *)
(** * Column reductions and buyer keys *)

Section Reduce.
Context {A : Type} (pick : A -> A -> A) (le : A -> A -> Prop).
Hypothesis pick_selects : forall a b, pick a b = a \/ pick a b = b.
Hypothesis pick_le_l : forall a b, le (pick a b) a.
Hypothesis pick_le_r : forall a b, le (pick a b) b.
Hypothesis le_refl : forall a, le a a.
Hypothesis le_trans : forall a b c, le a b -> le b c -> le a c.

Lemma reduce_some (l : list (option A)) a :
  In (Some a) l -> exists m, reduce pick l = Some m.
Proof.
  induction l as [|x l IH]; simpl; [contradiction|].
  intros [->|H].
  - destruct (reduce pick l); eauto.
  - destruct x as [y|]; [|auto].
    destruct (reduce pick l); eauto.
Qed.

Lemma reduce_in (l : list (option A)) m :
  reduce pick l = Some m -> In (Some m) l.
Proof.
  revert m. induction l as [|x l IH]; simpl; intros m H; [discriminate|].
  destruct x as [y|]; [|right; auto].
  destruct (reduce pick l) as [b|].
  - injection H as <-.
    destruct (pick_selects y b) as [->| ->]; [now left | right; auto].
  - injection H as <-. now left.
Qed.

Lemma reduce_bound (l : list (option A)) m :
  reduce pick l = Some m -> forall a, In (Some a) l -> le m a.
Proof.
  revert m. induction l as [|x l IH]; simpl; intros m H a Ha; [contradiction|].
  destruct x as [y|].
  - destruct (reduce pick l) as [b|] eqn:E.
    + injection H as <-. destruct Ha as [Ha|Ha].
      * injection Ha as ->. apply pick_le_l.
      * apply le_trans with b; [apply pick_le_r | now apply IH].
    + injection H as <-. destruct Ha as [Ha|Ha].
      * injection Ha as ->. apply le_refl.
      * destruct (reduce_some l a Ha) as [m' Hm']. congruence.
  - destruct Ha as [Ha|Ha]; [discriminate | now apply IH].
Qed.
End Reduce.

Lemma qmin_selects a b : qmin a b = a \/ qmin a b = b.
Proof. unfold qmin. destruct (Qle_bool a b); auto. Qed.

Lemma qmax_selects a b : qmax a b = a \/ qmax a b = b.
Proof. unfold qmax. destruct (Qle_bool a b); auto. Qed.

Lemma Qle_bool_false a b : Qle_bool a b = false -> Qle b a.
Proof.
  intros H. destruct (Qlt_le_dec b a) as [Hlt|Hle].
  - now apply Qlt_le_weak.
  - apply Qle_bool_iff in Hle. congruence.
Qed.

Lemma qmin_le_l a b : Qle (qmin a b) a.
Proof.
  unfold qmin. destruct (Qle_bool a b) eqn:E.
  - apply Qle_refl.
  - now apply Qle_bool_false.
Qed.

Lemma qmin_le_r a b : Qle (qmin a b) b.
Proof.
  unfold qmin. destruct (Qle_bool a b) eqn:E.
  - now apply Qle_bool_iff.
  - apply Qle_refl.
Qed.

Lemma qmax_ge_l a b : Qle a (qmax a b).
Proof.
  unfold qmax. destruct (Qle_bool a b) eqn:E.
  - now apply Qle_bool_iff.
  - apply Qle_refl.
Qed.

Lemma qmax_ge_r a b : Qle b (qmax a b).
Proof.
  unfold qmax. destruct (Qle_bool a b) eqn:E.
  - apply Qle_refl.
  - now apply Qle_bool_false.
Qed.

Lemma zmin_selects a b : Z.min a b = a \/ Z.min a b = b.
Proof. lia. Qed.

Lemma zmax_selects a b : Z.max a b = a \/ Z.max a b = b.
Proof. lia. Qed.

(** The extremes of a group that holds a complete row. *)
Lemma group_extremes (g : list Deal) d :
  In d g -> complete_row d ->
  exists t1 t2 v1 v2,
    date_min (map Date g) = Some t1 /\ earliest g t1
    /\ date_max (map Date g) = Some t2 /\ latest g t2
    /\ value_min (map Deal_Value g) = Some v1 /\ smallest g v1
    /\ value_max (map Deal_Value g) = Some v2 /\ largest g v2.
Proof.
  intros Hin [t [v [Ht [Hv _]]]].
  assert (Hd : In (Some t) (map Date g))
    by (rewrite <- Ht; now apply in_map).
  assert (Hq : In (Some v) (map Deal_Value g))
    by (rewrite <- Hv; now apply in_map).
  destruct (reduce_some Z.min _ t Hd) as [t1 E1].
  destruct (reduce_some Z.max _ t Hd) as [t2 E2].
  destruct (reduce_some qmin _ v Hq) as [v1 E3].
  destruct (reduce_some qmax _ v Hq) as [v2 E4].
  exists t1, t2, v1, v2. unfold earliest, latest, smallest, largest.
  repeat split; try assumption.
  - apply (reduce_in Z.min zmin_selects _ _ E1).
  - intros t' Ht'.
    apply (reduce_bound Z.min Z.le)
      with (l := map Date g) (m := t1); try assumption; intros; lia.
  - apply (reduce_in Z.max zmax_selects _ _ E2).
  - intros t' Ht'.
    apply (reduce_bound Z.max (fun a b => (b <= a)%Z))
      with (l := map Date g) (m := t2); try assumption; intros; lia.
  - apply (reduce_in qmin qmin_selects _ _ E3).
  - apply (reduce_bound qmin Qle qmin_le_l qmin_le_r Qle_refl Qle_trans);
      assumption.
  - apply (reduce_in qmax qmax_selects _ _ E4).
  - intros v' Hv'.
    apply (reduce_bound qmax (fun a b => Qle b a))
      with (l := map Deal_Value g) (m := v2); try assumption.
    + apply qmax_ge_l.
    + apply qmax_ge_r.
    + apply Qle_refl.
    + intros a b c H1 H2. now apply Qle_trans with b.
Qed.

Lemma opt_eqb_string_eq (x y : option string) :
  opt_eqb String.eqb x y = true <-> x = y.
Proof.
  destruct x as [a|], y as [b|]; simpl; split; intros H;
    try discriminate; try reflexivity.
  - apply String.eqb_eq in H. now subst.
  - injection H as ->. apply String.eqb_refl.
Qed.

Lemma option_eq_dec_string (x y : option string) : {x = y} + {x <> y}.
Proof. decide equality. apply String.string_dec. Qed.

Lemma existsb_opt_eqb x seen :
  existsb (opt_eqb String.eqb x) seen = true <-> In x seen.
Proof.
  rewrite existsb_exists. split.
  - intros [y [Hy E]]. apply opt_eqb_string_eq in E. now subst.
  - intros H. exists x. split; [exact H | now apply opt_eqb_string_eq].
Qed.

Lemma unique_from_in l :
  forall seen x, In x (unique_from seen l) <-> In x l /\ ~ In x seen.
Proof.
  induction l as [|a l IH]; intros seen x; simpl; [tauto|].
  destruct (existsb (opt_eqb String.eqb a) seen) eqn:E.
  - apply existsb_opt_eqb in E. rewrite IH. split.
    + intros [H1 H2]. auto.
    + intros [[->|H1] H2]; [contradiction | auto].
  - assert (Hn : ~ In a seen).
    { intros H. apply existsb_opt_eqb in H. congruence. }
    simpl. rewrite IH. simpl. split.
    + intros [->|[H1 H2]]; [auto|]. split; [auto | tauto].
    + intros [[->|H1] H2]; [auto|].
      destruct (option_eq_dec_string a x) as [->|Hne]; [auto|].
      right. split; [exact H1|]. intros [H|H]; auto.
Qed.

Lemma unique_in l x : In x (unique l) <-> In x l.
Proof. unfold unique. rewrite unique_from_in. simpl. tauto. Qed.

Lemma dropna_in {A : Type} (l : list (option A)) a :
  In a (dropna l) <-> In (Some a) l.
Proof.
  induction l as [|[b|] l IH]; simpl.
  - tauto.
  - rewrite IH. split; intros [H|H]; auto.
    + left. now subst.
    + left. now injection H.
  - rewrite IH. split; [auto|]. intros [H|H]; [discriminate | exact H].
Qed.

Lemma insert_str_in s l x : In x (insert_str s l) <-> x = s \/ In x l.
Proof.
  induction l as [|t l IH]; simpl.
  - split; intros [H|H]; auto.
  - destruct (String.leb s t); simpl.
    + split; intros [H|H]; auto.
    + rewrite IH. split; intros H; intuition auto.
Qed.

Lemma sorted_str_in l x : In x (sorted_str l) <-> In x l.
Proof.
  unfold sorted_str. induction l as [|s l IH]; simpl; [tauto|].
  rewrite insert_str_in, IH. split; intros [H|H]; auto.
Qed.

(** The groups are the buyers that occur in the frame. *)
Lemma group_keys_in data b :
  In b (group_keys data) <-> In (Some b) (map Buyer_List data).
Proof.
  unfold group_keys. rewrite sorted_str_in, dropna_in, unique_in. reflexivity.
Qed.

Lemma unique_buyers_group_keys data : unique_buyers data = group_keys data.
Proof. reflexivity. Qed.

Lemma mapM_total {A B : Type} (f : A -> option B) (g : A -> B) (l : list A) :
  (forall a, In a l -> f a = Some (g a)) -> mapM f l = Some (map g l).
Proof.
  induction l as [|a l IH]; simpl; intros H; [reflexivity|].
  rewrite (H a (or_introl eq_refl)). simpl.
  rewrite IH by (intros; apply H; now right). reflexivity.
Qed.

Lemma find_keyed {A : Type} (key : A -> string) (mk : string -> A) keys b :
  (forall k, key (mk k) = k) ->
  In b keys ->
  find (fun r => String.eqb (key r) b) (map mk keys) = Some (mk b).
Proof.
  intros Hkey. induction keys as [|k keys IH]; simpl; [contradiction|].
  rewrite Hkey. destruct (String.eqb_spec k b) as [->|Hne].
  - reflexivity.
  - intros [H|H]; [contradiction | auto].
Qed.

Lemma has_buyer_iff b d : has_buyer b d = true <-> Buyer_List d = Some b.
Proof.
  unfold has_buyer. destruct (Buyer_List d) as [x|]; split; intros H;
    try discriminate.
  - apply String.eqb_eq in H. now subst.
  - injection H as ->. apply String.eqb_refl.
Qed.

Lemma buyer_is_some b d : buyer_is (Some b) d = has_buyer b d.
Proof. reflexivity. Qed.

Lemma buyer_is_none d : buyer_is None d = false.
Proof. reflexivity. Qed.

Lemma group_nonempty data b :
  In (Some b) (map Buyer_List data) -> exists d, In d (group b data).
Proof.
  rewrite in_map_iff. intros [d [Hb Hin]]. exists d.
  unfold group. apply filter_In. split; [exact Hin|].
  now apply has_buyer_iff.
Qed.

(** *** Rows of a filtered set *)

Lemma load_rows_formatted table :
  forall k d, In d (load_rows k table) ->
              Formatted_Date d = option_map strftime (Date d).
Proof.
  induction table as [|r rest IH]; simpl; intros k d H; [contradiction|].
  apply in_app_or in H. destruct H as [H|H]; [|eauto].
  unfold explode_row in H. apply in_map_iff in H.
  destruct H as [b [<- _]]. reflexivity.
Qed.

Lemma filtered_set_complete c table :
  forall d, In d (filtered_set c table) -> complete_row d.
Proof.
  intros d H. unfold filtered_set, filter_engine in H.
  apply filter_In in H. destruct H as [Hin H].
  apply mask_true in H. destruct H as [t [v [Ht [_ [Hv _]]]]].
  exists t, v. repeat split; try assumption.
  rewrite (load_rows_formatted table 0 d Hin), Ht. reflexivity.
Qed.

(** *** The summary of a frame of complete rows *)

(** The 'Buyer Summary' row of a group, from the reductions of its
    columns. *)
Lemma agg_complete data b :
  (forall d, In d data -> complete_row d) ->
  In (Some b) (map Buyer_List data) ->
  exists t1 t2 v1 v2,
    agg b data
    = Some {| Buyer := b;
              Number_of_Deals := List.length (named (group b data));
              First_Deal_Date := strftime t1;
              Last_Deal_Date := strftime t2;
              Min_Deal_Value := Some (np_round2 v1);
              Max_Deal_Value := Some (np_round2 v2) |}
    /\ earliest (group b data) t1 /\ latest (group b data) t2
    /\ smallest (group b data) v1 /\ largest (group b data) v2.
Proof.
  intros Hc Hb. destruct (group_nonempty data b Hb) as [d Hd].
  assert (Hcd : complete_row d).
  { apply Hc. unfold group in Hd. apply filter_In in Hd. tauto. }
  destruct (group_extremes (group b data) d Hd Hcd)
    as [t1 [t2 [v1 [v2 [E1 [H1 [E2 [H2 [E3 [H3 [E4 H4]]]]]]]]]]].
  exists t1, t2, v1, v2.
  split; [|tauto].
  unfold agg. fold (group b data).
  unfold date_min, date_max, value_min, value_max in *.
  rewrite E1, E2, E3, E4. simpl.
  do 2 f_equal. unfold count, named.
  clear. induction (group b data) as [|x g IH]; simpl; [reflexivity|].
  destruct (Target_Company_Name x); simpl; congruence.
Qed.

(* ================================================================== *)
(** * Dropping duplicates and sorting by date *)

Lemma drop_duplicates_from_subset same l :
  forall seen x, In x (drop_duplicates_from same seen l) -> In x l.
Proof.
  induction l as [|r l IH]; simpl; intros seen x H; [contradiction|].
  destruct (existsb (same r) seen).
  - right. eauto.
  - destruct H as [H|H]; [now left | right; eauto].
Qed.

Lemma drop_duplicates_subset same l x :
  In x (drop_duplicates same l) -> In x l.
Proof. apply drop_duplicates_from_subset. Qed.

(** Every row has a kept row with the same key. *)
Lemma drop_duplicates_from_represents same l :
  (forall x, same x x = true) ->
  forall seen x,
    In x l ->
    (exists s, In s seen /\ same x s = true)
    \/ (exists y, In y (drop_duplicates_from same seen l) /\ same x y = true).
Proof.
  intros Hrefl. induction l as [|r l IH]; simpl; intros seen x H;
    [contradiction|].
  destruct (existsb (same r) seen) eqn:E.
  - destruct H as [->|H]; [|now apply IH].
    left. apply existsb_exists in E. exact E.
  - destruct H as [->|H].
    + right. exists x. split; [now left | apply Hrefl].
    + destruct (IH (r :: seen) x H) as [[s [[<-|Hs] Hx]]|[y [Hy Hx]]].
      * right. exists r. split; [now left | exact Hx].
      * left. eauto.
      * right. exists y. split; [now right | exact Hx].
Qed.

Lemma drop_duplicates_represents same l x :
  (forall x, same x x = true) ->
  In x l -> exists y, In y (drop_duplicates same l) /\ same x y = true.
Proof.
  intros Hrefl H.
  destruct (drop_duplicates_from_represents same l Hrefl [] x H)
    as [[s [[] _]]|Hy]; exact Hy.
Qed.

Lemma same_buyer_deal_refl x : same_buyer_deal x x = true.
Proof.
  unfold same_buyer_deal, same_deal.
  rewrite !andb_true_iff. repeat split.
  - now apply opt_eqb_string_eq.
  - now apply opt_eqb_string_eq.
  - destruct (Date x); simpl; [apply Z.eqb_refl | reflexivity].
  - destruct (Deal_Value x); simpl; [apply Qeq_bool_refl | reflexivity].
Qed.

Lemma same_buyer_deal_buyer x y :
  same_buyer_deal x y = true -> Buyer_List x = Buyer_List y.
Proof.
  unfold same_buyer_deal. rewrite andb_true_iff.
  intros [H _]. now apply opt_eqb_string_eq.
Qed.

(** Dropping exact duplicates keeps every buyer. *)
Lemma drop_duplicates_buyers data b :
  In b (map Buyer_List (drop_duplicates same_buyer_deal data))
  <-> In b (map Buyer_List data).
Proof.
  rewrite !in_map_iff. split.
  - intros [d [Hb Hd]]. exists d. split; [exact Hb|].
    now apply drop_duplicates_subset in Hd.
  - intros [d [Hb Hd]].
    destruct (drop_duplicates_represents same_buyer_deal data d
                same_buyer_deal_refl Hd) as [y [Hy E]].
    exists y. split; [|exact Hy].
    apply same_buyer_deal_buyer in E. congruence.
Qed.

Lemma insert_by_date_length r l :
  List.length (insert_by_date r l) = S (List.length l).
Proof.
  induction l as [|x l IH]; simpl; [reflexivity|].
  destruct (date_leb (Date r) (Date x)); simpl; auto.
Qed.

Lemma sort_values_Date_length l :
  List.length (sort_values_Date l) = List.length l.
Proof.
  unfold sort_values_Date. induction l as [|x l IH]; simpl; [reflexivity|].
  rewrite insert_by_date_length. auto.
Qed.

Lemma insert_by_date_in r l x :
  In x (insert_by_date r l) <-> x = r \/ In x l.
Proof.
  induction l as [|y l IH]; simpl.
  - split; intros [H|H]; auto.
  - destruct (date_leb (Date r) (Date y)); simpl.
    + split; intros [H|H]; auto.
    + rewrite IH. split; intros H; intuition auto.
Qed.

Lemma sort_values_Date_in l x : In x (sort_values_Date l) <-> In x l.
Proof.
  unfold sort_values_Date. induction l as [|y l IH]; simpl; [tauto|].
  rewrite insert_by_date_in, IH. split; intros [H|H]; auto.
Qed.

Lemma date_leb_total a b : date_leb a b = false -> date_leb b a = true.
Proof.
  destruct a as [x|], b as [y|]; simpl; intros H; try discriminate; auto.
  apply Z.leb_le. apply Z.leb_gt in H. lia.
Qed.

Lemma insert_by_date_sorted r l :
  Sorted by_date l -> Sorted by_date (insert_by_date r l).
Proof.
  induction l as [|x l IH]; simpl; intros H.
  - repeat constructor.
  - destruct (date_leb (Date r) (Date x)) eqn:E.
    + constructor; [exact H|]. constructor. exact E.
    + inversion H as [|? ? Hs Hh]; subst.
      constructor; [now apply IH|].
      destruct l as [|y l]; simpl.
      * constructor. now apply date_leb_total.
      * destruct (date_leb (Date r) (Date y)).
        -- constructor. now apply date_leb_total.
        -- constructor. now inversion Hh.
Qed.

Lemma sort_values_Date_sorted l : Sorted by_date (sort_values_Date l).
Proof.
  unfold sort_values_Date. induction l as [|x l IH]; simpl.
  - constructor.
  - now apply insert_by_date_sorted.
Qed.

Lemma Sorted_consecutive {A : Type} (R : A -> A -> Prop) (l : list A) :
  Sorted R l ->
  forall j a b, nth_error l j = Some a -> nth_error l (S j) = Some b -> R a b.
Proof.
  induction 1 as [|x l Hs IH Hh]; intros j a b Ha Hb.
  - destruct j; discriminate.
  - destruct j as [|j]; simpl in Ha, Hb.
    + injection Ha as <-. destruct l as [|y l]; [discriminate|].
      simpl in Hb. injection Hb as <-. now inversion Hh.
    + eauto.
Qed.

(* ================================================================== *)
(** * Shape of the workbook *)

Lemma agg_buyer b data r : agg b data = Some r -> Buyer r = b.
Proof.
  unfold agg.
  destruct (strftime_of (date_min (map Date (filter (has_buyer b) data))));
    simpl; [|discriminate].
  destruct (strftime_of (date_max (map Date (filter (has_buyer b) data))));
    simpl; [|discriminate].
  intros H. injection H as <-. reflexivity.
Qed.

(** On a frame of complete rows the summary is produced, with the row of
    every buyer computed by [agg]. *)
Lemma summary_complete data :
  (forall d, In d data -> complete_row d) ->
  exists rs,
    summary data = Some rs
    /\ forall b, In (Some b) (map Buyer_List data) ->
                 find (fun r => String.eqb (Buyer r) b) rs = agg b data.
Proof.
  intros Hc.
  set (g := fun b => match agg b data with
                     | Some r => r
                     | None => mkSummary b 0 0 0 None None
                     end).
  assert (Hg : forall b, In (Some b) (map Buyer_List data) ->
                         agg b data = Some (g b)).
  { intros b Hb. destruct (agg_complete data b Hc Hb) as [? [? [? [? [E _]]]]].
    unfold g. rewrite E. reflexivity. }
  exists (map g (group_keys data)). split.
  - unfold summary. apply mapM_total.
    intros b Hb. apply Hg. now apply group_keys_in.
  - intros b Hb. rewrite (Hg b Hb).
    apply (find_keyed Buyer g).
    + intros k. unfold g. destruct (agg k data) eqn:E; [|reflexivity].
      now apply agg_buyer in E.
    + now apply group_keys_in.
Qed.

Lemma triple_complete d :
  complete_row d -> triple d = triple_cells (row_triple d).
Proof.
  intros [t [v [_ [Hv Hf]]]].
  unfold triple, row_triple, triple_cells. rewrite Hv, Hf. reflexivity.
Qed.

Lemma flat_map_triple_complete l :
  (forall d, In d l -> complete_row d) ->
  flat_map triple l = flat_map triple_cells (map row_triple l).
Proof.
  induction l as [|d l IH]; intros H; [reflexivity|].
  cbn [flat_map map].
  rewrite (triple_complete d) by (apply H; now left).
  rewrite IH by (intros; apply H; now right). reflexivity.
Qed.

Lemma flat_map_triple_length l :
  List.length (flat_map triple l) = 3 * List.length l.
Proof.
  induction l as [|d l IH]; [reflexivity|].
  cbn [flat_map]. rewrite length_app, IH. simpl. lia.
Qed.

Lemma filter_false {A : Type} (l : list A) : filter (fun _ => false) l = [].
Proof. induction l; simpl; auto. Qed.

Lemma deal_info_length data buyer :
  List.length (deal_info data buyer)
  = 3 * List.length (filter (buyer_is buyer) data).
Proof.
  unfold deal_info. rewrite flat_map_triple_length, sort_values_Date_length.
  reflexivity.
Qed.

Lemma filter_buyer_is_none data : filter (buyer_is None) data = [].
Proof. apply filter_false. Qed.

Lemma list_max_ge l x : In x l -> x <= list_max l.
Proof.
  intros H. pose proof (proj1 (list_max_le l (list_max l)) (le_n _)) as F.
  rewrite Forall_forall in F. now apply F.
Qed.

Lemma list_max_scale (f : string -> nat) l :
  list_max (map (fun x => 3 * f x) l) = 3 * list_max (map f l).
Proof.
  induction l as [|x l IH]; [reflexivity|].
  cbn [map list_max fold_right]. fold (list_max (map (fun x => 3 * f x) l)).
  fold (list_max (map f l)). rewrite IH. lia.
Qed.

Lemma deals_held_length data b :
  List.length
    (filter (buyer_is (Some b)) (drop_duplicates same_buyer_deal data))
  = deals_held data b.
Proof. reflexivity. Qed.

(** The widest entry of the dictionary holds the triples of the buyer with
    the most deals. *)
Lemma frame_width_max_deals data :
  frame_width (deal_dict (drop_duplicates same_buyer_deal data))
  = 3 * max_deals data.
Proof.
  set (dd := drop_duplicates same_buyer_deal data).
  unfold frame_width, deal_dict. rewrite map_map. cbn [snd].
  apply Nat.le_antisymm.
  - apply list_max_le. apply Forall_forall. intros n Hn.
    apply in_map_iff in Hn. destruct Hn as [buyer [<- Hb]].
    rewrite deal_info_length. destruct buyer as [b|].
    + rewrite unique_in in Hb. fold dd in Hb. unfold dd in Hb.
      rewrite drop_duplicates_buyers in Hb.
      rewrite <- dropna_in in Hb.
      change (List.length (filter (buyer_is (Some b)) dd))
        with (deals_held data b).
      apply Nat.mul_le_mono_l. unfold max_deals.
      apply list_max_ge. now apply in_map.
    + rewrite filter_buyer_is_none. simpl. lia.
  - unfold max_deals. rewrite <- list_max_scale.
    apply list_max_le. apply Forall_forall. intros n Hn.
    apply in_map_iff in Hn. destruct Hn as [b [<- Hb]].
    rewrite dropna_in in Hb. rewrite <- drop_duplicates_buyers in Hb.
    rewrite <- unique_in in Hb.
    apply list_max_ge. apply in_map_iff. exists (Some b).
    split; [|exact Hb].
    rewrite deal_info_length. reflexivity.
Qed.

Lemma flat_map_length_3 {A B : Type} (f : A -> list B) (l : list A) :
  (forall a, List.length (f a) = 3) ->
  List.length (flat_map f l) = 3 * List.length l.
Proof.
  intros H. induction l as [|a l IH]; [reflexivity|].
  cbn [flat_map]. rewrite length_app, H, IH. simpl. lia.
Qed.

(** Lines 79-84 produce one header per column. *)
Lemma col_headers_length m :
  List.length (col_headers (1 + 3 * m)) = 1 + 3 * m.
Proof.
  unfold col_headers. cbn [List.length].
  rewrite flat_map_length_3 by reflexivity.
  rewrite length_seq.
  replace (1 + 3 * m - 1) with (m * 3) by lia.
  rewrite Nat.div_mul by discriminate. lia.
Qed.

(** The details sheet is always produced: the assignment of line 86 finds
    as many headers as columns. *)
Lemma deals_df_shape data :
  deals_df (drop_duplicates same_buyer_deal data)
  = Some {| columns := col_headers (1 + 3 * max_deals data);
            rows := from_dict
                      (deal_dict (drop_duplicates same_buyer_deal data)) |}.
Proof.
  unfold deals_df. rewrite frame_width_max_deals.
  rewrite col_headers_length, Nat.eqb_refl. reflexivity.
Qed.

(** A row of the details sheet: the triples of the buyer's deals without
    duplicates, by date, then empty cells up to the common width. *)
Lemma details_row_shape data b cells :
  In (b, cells)
     (from_dict (deal_dict (drop_duplicates same_buyer_deal data))) ->
  In b (map Buyer_List data)
  /\ cells
     = flat_map triple
         (sort_values_Date
            (filter (buyer_is b) (drop_duplicates same_buyer_deal data)))
       ++ repeat CEmpty
            (3 * (max_deals data
                  - List.length
                      (filter (buyer_is b)
                         (drop_duplicates same_buyer_deal data)))).
Proof.
  unfold from_dict. rewrite frame_width_max_deals.
  unfold deal_dict. rewrite map_map. cbn [fst snd].
  intros H. apply in_map_iff in H. destruct H as [buyer [E Hb]].
  injection E as <- <-.
  split.
  - rewrite unique_in in Hb. now rewrite drop_duplicates_buyers in Hb.
  - unfold pad. rewrite deal_info_length. unfold deal_info.
    f_equal. f_equal. lia.
Qed.

(** On a frame of complete rows the workbook is produced. *)
Lemma prepare_excel_summary_complete data :
  (forall d, In d data -> complete_row d) ->
  exists rs,
    summary data = Some rs
    /\ prepare_excel_summary data
       = Some {| Buyer_Summary := rs;
                 Buyer_Deal_Details :=
                   {| columns := col_headers (1 + 3 * max_deals data);
                      rows := from_dict
                                (deal_dict
                                   (drop_duplicates same_buyer_deal data)) |};
                 Details_fills := fills (1 + 3 * max_deals data) |}
    /\ forall b, In (Some b) (map Buyer_List data) ->
                 find (fun r => String.eqb (Buyer r) b) rs = agg b data.
Proof.
  intros Hc. destruct (summary_complete data Hc) as [rs [Hs Hf]].
  exists rs. split; [exact Hs|]. split; [|exact Hf].
  unfold prepare_excel_summary. rewrite Hs. cbn [bind].
  rewrite deals_df_shape. cbn [bind columns].
  rewrite col_headers_length. reflexivity.
Qed.

(* ================================================================== *)
(** * The 'Buyer Summary' sheet *)

(** C5 on a buyer whose only deal has no target company name: the buyer
    has one deal in the filtered set and the per-buyer view counts one,
    but the summary row, which counts the cells of the target column that
    are present, counts none. *)
Theorem summary_count_skips_unnamed_target :
  List.length
    (group "Alpha" (filtered_set Sample.wide_open [Sample.unnamed_target])) = 1
  /\ render_buyer (filtered_set Sample.wide_open [Sample.unnamed_target])
       "Alpha"
     = Stats {| Total_Deals := 1;
                First_Investment := 11;
                Most_Recent_Investment := 11;
                Shown_Min_Deal_Value := Some (Qmake 7 1);
                Shown_Max_Deal_Value := Some (Qmake 7 1) |}
  /\ exists wb,
       prepare_excel_summary
         (filtered_set Sample.wide_open [Sample.unnamed_target]) = Some wb
       /\ summary_row wb "Alpha"
          = Some {| Buyer := "Alpha";
                    Number_of_Deals := 0;
                    First_Deal_Date := 11;
                    Last_Deal_Date := 11;
                    Min_Deal_Value := Some (Qmake 7 1);
                    Max_Deal_Value := Some (Qmake 7 1) |}.
Proof.
  split; [reflexivity|]. split; [vm_compute; reflexivity|].
  eexists. split; [vm_compute; reflexivity | reflexivity].
Qed.

(** The summary row of a buyer of a filtered set, as the code computes it:
    the number of the buyer's rows that carry a target company name (every
    row is counted, exact duplicates too), the earliest and the latest
    date, and the smallest and the largest value as [numpy] rounds them. *)
Lemma buyer_summary_row c table b :
  In (Some b) (map Buyer_List (filtered_set c table)) ->
  exists wb t1 t2 v1 v2,
    prepare_excel_summary (filtered_set c table) = Some wb
    /\ summary_row wb b
       = Some {| Buyer := b;
                 Number_of_Deals :=
                   List.length (named (group b (filtered_set c table)));
                 First_Deal_Date := strftime t1;
                 Last_Deal_Date := strftime t2;
                 Min_Deal_Value := Some (np_round2 v1);
                 Max_Deal_Value := Some (np_round2 v2) |}
    /\ earliest (group b (filtered_set c table)) t1
    /\ latest (group b (filtered_set c table)) t2
    /\ smallest (group b (filtered_set c table)) v1
    /\ largest (group b (filtered_set c table)) v2.
Proof.
  intros Hb.
  pose proof (filtered_set_complete c table) as Hc.
  destruct (prepare_excel_summary_complete _ Hc) as [rs [_ [Hp Hf]]].
  destruct (agg_complete _ b Hc Hb) as [t1 [t2 [v1 [v2 [Ha Hx]]]]].
  eexists. exists t1, t2, v1, v2.
  split; [exact Hp|]. split; [|exact Hx].
  unfold summary_row. cbn [Buyer_Summary].
  rewrite (Hf b Hb). exact Ha.
Qed.

(** The summary and the view round differently: a smallest value of 0.015
    and a largest of 2.675 (as doubles) come out as 0.02 and 2.68 in the
    summary sheet and as 0.01 and 2.67 in the view. *)
Example summary_rounds_as_numpy :
  render_buyer (filtered_set Sample.wide_open Sample.half_cents) "Alpha"
  = Stats {| Total_Deals := 2;
             First_Investment := 1;
             Most_Recent_Investment := 2;
             Shown_Min_Deal_Value := Some (Qmake 1 100);
             Shown_Max_Deal_Value := Some (Qmake 267 100) |}
  /\ exists wb,
       prepare_excel_summary (filtered_set Sample.wide_open Sample.half_cents)
       = Some wb
       /\ summary_row wb "Alpha"
          = Some {| Buyer := "Alpha";
                    Number_of_Deals := 2;
                    First_Deal_Date := 1;
                    Last_Deal_Date := 2;
                    Min_Deal_Value := Some (Qmake 1 50);
                    Max_Deal_Value := Some (Qmake 67 25) |}.
Proof.
  split; [vm_compute; reflexivity|].
  eexists. split; [vm_compute; reflexivity | reflexivity].
Qed.

(** The example of the summary: deals valued 2.5, 7.0 and 3.25 on three
    successive days. *)
Example summary_three_deals :
  exists wb,
    prepare_excel_summary (filtered_set Sample.wide_open Sample.three_deals)
    = Some wb
    /\ summary_row wb "Alpha"
       = Some {| Buyer := "Alpha";
                 Number_of_Deals := 3;
                 First_Deal_Date := 1;
                 Last_Deal_Date := 3;
                 Min_Deal_Value := Some (Qmake 5 2);
                 Max_Deal_Value := Some (Qmake 7 1) |}.
Proof. eexists. split; [vm_compute; reflexivity | reflexivity]. Qed.

(* ================================================================== *)
(** * The 'Buyer Deal Details' sheet *)

Lemma deals_held_le_max data b :
  In (Some b) (map Buyer_List data) -> deals_held data b <= max_deals data.
Proof.
  intros H. unfold max_deals. apply list_max_ge.
  apply in_map. now apply dropna_in.
Qed.

Lemma kept_rows_complete data buyer :
  (forall d, In d data -> complete_row d) ->
  forall d,
    In d (sort_values_Date
            (filter (buyer_is buyer) (drop_duplicates same_buyer_deal data))) ->
    complete_row d.
Proof.
  intros Hc d H. rewrite sort_values_Date_in in H.
  apply filter_In in H. destruct H as [H _].
  apply drop_duplicates_subset in H. now apply Hc.
Qed.

(** C7: the details sheet has 1 + 3*m columns, m the largest number of
    deals a buyer holds once exact duplicates are dropped; every buyer of
    the filtered set has a row, every row has 3*m cells after the buyer
    name, and the row of a buyer with d deals is its d triples followed by
    3*(m-d) empty cells. *)
Theorem details_sheet_width c table :
  filtered_set c table <> [] ->
  exists wb,
    prepare_excel_summary (filtered_set c table) = Some wb
    /\ List.length (columns (Buyer_Deal_Details wb))
       = 1 + 3 * max_deals (filtered_set c table)
    /\ (forall name,
          In (Some name) (map Buyer_List (filtered_set c table)) ->
          exists cells,
            In (Some name, cells) (rows (Buyer_Deal_Details wb)))
    /\ (forall b cells,
          In (b, cells) (rows (Buyer_Deal_Details wb)) ->
          List.length cells = 3 * max_deals (filtered_set c table)
          /\ forall name,
               b = Some name ->
               exists ts,
                 List.length ts = deals_held (filtered_set c table) name
                 /\ cells
                    = flat_map triple_cells ts
                      ++ repeat CEmpty
                           (3 * (max_deals (filtered_set c table)
                                 - deals_held (filtered_set c table) name))).
Proof.
  intros _.
  pose proof (filtered_set_complete c table) as Hc.
  set (data := filtered_set c table) in *.
  destruct (prepare_excel_summary_complete data Hc) as [rs [_ [Hp _]]].
  eexists. split; [exact Hp|].
  cbn [Buyer_Deal_Details columns rows].
  split; [apply col_headers_length|]. split.
  - intros name Hn. eexists.
    unfold from_dict, deal_dict. rewrite map_map. cbn [fst snd].
    apply in_map_iff. exists (Some name). split; [reflexivity|].
    rewrite unique_in. now rewrite drop_duplicates_buyers.
  - intros b cells Hrow.
    destruct (details_row_shape data b cells Hrow) as [Hb ->].
    split.
    + rewrite length_app, repeat_length, flat_map_triple_length,
        sort_values_Date_length.
      destruct b as [name|].
      * pose proof (deals_held_le_max data name Hb) as Hle.
        change (List.length
                  (filter (buyer_is (Some name))
                     (drop_duplicates same_buyer_deal data)))
          with (deals_held data name).
        lia.
      * rewrite filter_buyer_is_none. simpl. lia.
    + intros name ->.
      exists (map row_triple
                (sort_values_Date
                   (filter (buyer_is (Some name))
                      (drop_duplicates same_buyer_deal data)))).
      split.
      * rewrite length_map, sort_values_Date_length. reflexivity.
      * rewrite (flat_map_triple_complete _
                   (kept_rows_complete data (Some name) Hc)).
        reflexivity.
Qed.

Lemma details_sheet_width_witness :
  filtered_set Sample.wide_open Sample.one_three_five <> []
  /\ exists wb,
       prepare_excel_summary
         (filtered_set Sample.wide_open Sample.one_three_five) = Some wb
       /\ List.length (columns (Buyer_Deal_Details wb))
          = 1 + 3 * max_deals
                      (filtered_set Sample.wide_open Sample.one_three_five).
Proof.
  assert (H : filtered_set Sample.wide_open Sample.one_three_five <> [])
    by (vm_compute; discriminate).
  split; [exact H|].
  destruct (details_sheet_width Sample.wide_open Sample.one_three_five H)
    as [wb [Hp [Hw _]]].
  exists wb. split; [exact Hp | exact Hw].
Defined.

(** The example of the details sheet: buyers with 1, 3 and 5 deals give 16
    columns, and the row of the buyer with one deal ends in 12 empty
    cells. *)
Example details_one_three_five :
  map (deals_held (filtered_set Sample.wide_open Sample.one_three_five))
      ["One"; "Three"; "Five"]%string = [1; 3; 5]
  /\ exists wb,
       prepare_excel_summary
         (filtered_set Sample.wide_open Sample.one_three_five) = Some wb
       /\ List.length (columns (Buyer_Deal_Details wb)) = 16
       /\ details_row wb "One"
          = Some ([CDate 5; CText "T1"; CNum (Qmake 1 1)]
                  ++ repeat CEmpty 12).
Proof.
  split; [reflexivity|].
  eexists. split; [vm_compute; reflexivity|]. split; reflexivity.
Qed.

(** C9: in every row of the details sheet the triples come in ascending
    order of date: of two consecutive triples the later one is not dated
    before the earlier one. *)
Theorem details_row_by_date c table :
  exists wb,
    prepare_excel_summary (filtered_set c table) = Some wb
    /\ forall b cells,
         In (b, cells) (rows (Buyer_Deal_Details wb)) ->
         exists ts n,
           cells = flat_map triple_cells ts ++ repeat CEmpty n
           /\ forall j t1 t2,
                nth_error ts j = Some t1 ->
                nth_error ts (S j) = Some t2 ->
                (triple_day t1 <= triple_day t2)%Z.
Proof.
  pose proof (filtered_set_complete c table) as Hc.
  set (data := filtered_set c table) in *.
  destruct (prepare_excel_summary_complete data Hc) as [rs [_ [Hp _]]].
  eexists. split; [exact Hp|].
  cbn [Buyer_Deal_Details rows].
  intros b cells Hrow.
  destruct (details_row_shape data b cells Hrow) as [_ ->].
  set (g := sort_values_Date
              (filter (buyer_is b) (drop_duplicates same_buyer_deal data))).
  pose proof (kept_rows_complete data b Hc) as Hg. fold g in Hg.
  exists (map row_triple g). eexists.
  split; [rewrite (flat_map_triple_complete g Hg); reflexivity|].
  intros j t1 t2 H1 H2.
  rewrite nth_error_map in H1, H2.
  destruct (nth_error g j) as [d1|] eqn:E1; [|discriminate].
  destruct (nth_error g (S j)) as [d2|] eqn:E2; [|discriminate].
  simpl in H1, H2. injection H1 as <-. injection H2 as <-.
  pose proof (Sorted_consecutive by_date g (sort_values_Date_sorted _)
                j d1 d2 E1 E2) as Hle.
  destruct (Hg d1 (nth_error_In _ _ E1)) as [a [va [Ha [_ Hfa]]]].
  destruct (Hg d2 (nth_error_In _ _ E2)) as [b' [vb [Hb [_ Hfb]]]].
  unfold by_date in Hle. rewrite Ha, Hb in Hle. simpl in Hle.
  apply Z.leb_le in Hle.
  unfold triple_day, row_triple. cbn [fst]. rewrite Hfa, Hfb.
  now apply strftime_monotone.
Qed.

(* ================================================================== *)
(** * Further facts about the export *)

Lemma drop_duplicates_from_idempotent same l :
  forall seen,
    drop_duplicates_from same seen (drop_duplicates_from same seen l)
    = drop_duplicates_from same seen l.
Proof.
  induction l as [|r l IH]; intros seen; [reflexivity|].
  cbn [drop_duplicates_from].
  destruct (existsb (same r) seen) eqn:E; [apply IH|].
  cbn [drop_duplicates_from]. rewrite E, IH. reflexivity.
Qed.

Lemma drop_duplicates_idempotent same l :
  drop_duplicates same (drop_duplicates same l) = drop_duplicates same l.
Proof. apply drop_duplicates_from_idempotent. Qed.

(** The details sheet and its colour pass do not change when the exact
    duplicates are removed from the input beforehand. *)
Lemma details_deduplicated data wb wb' :
  prepare_excel_summary data = Some wb ->
  prepare_excel_summary (drop_duplicates same_buyer_deal data) = Some wb' ->
  Buyer_Deal_Details wb' = Buyer_Deal_Details wb
  /\ Details_fills wb' = Details_fills wb.
Proof.
  unfold prepare_excel_summary.
  rewrite drop_duplicates_idempotent.
  destruct (summary data) as [s|]; [|discriminate].
  destruct (summary (drop_duplicates same_buyer_deal data)) as [s'|];
    [|discriminate].
  cbn [bind].
  destruct (deals_df (drop_duplicates same_buyer_deal data)) as [d|];
    [|discriminate].
  cbn [bind]. intros H H'. injection H as <-. injection H' as <-.
  split; reflexivity.
Qed.

(** The summary counts every row of the buyer that carries a target name,
    duplicates included. *)
Lemma summary_counts_rows c table b wb r :
  In (Some b) (map Buyer_List (filtered_set c table)) ->
  prepare_excel_summary (filtered_set c table) = Some wb ->
  summary_row wb b = Some r ->
  Number_of_Deals r = List.length (named (group b (filtered_set c table))).
Proof.
  intros Hb Hp Hr.
  pose proof (filtered_set_complete c table) as Hc.
  destruct (prepare_excel_summary_complete _ Hc) as [rs [_ [Hp' Hf]]].
  rewrite Hp' in Hp. injection Hp as <-.
  unfold summary_row in Hr. cbn [Buyer_Summary] in Hr.
  rewrite (Hf b Hb) in Hr.
  destruct (agg_complete _ b Hc Hb) as [t1 [t2 [v1 [v2 [Ha _]]]]].
  rewrite Ha in Hr. injection Hr as <-. reflexivity.
Qed.

(** Deals entered latest-first come out earliest-first. *)
Example details_sorted_five :
  exists wb,
    prepare_excel_summary
      (filtered_set Sample.wide_open Sample.one_three_five) = Some wb
    /\ details_row wb "Three"
       = Some [ CDate 3; CText "T3"; CNum (Qmake 3 1);
                CDate 4; CText "T2"; CNum (Qmake 2 1);
                CDate 5; CText "T1"; CNum (Qmake 1 1);
                CEmpty; CEmpty; CEmpty; CEmpty; CEmpty; CEmpty ].
Proof. eexists. split; [vm_compute; reflexivity | reflexivity]. Qed.

(** The colours the pass gives the first five slots, against the palette
    order. *)
Example color_pass_five_slots :
  map start_color (fills 16)
  = ["e6f7ff"; "f2f2f2"; "eafbea"; "f9f9f9"; "e6f7ff"]%string
  /\ map palette_color [0; 1; 2; 3; 4]
     = ["f2f2f2"; "e6f7ff"; "f9f9f9"; "eafbea"; "f2f2f2"]%string.
Proof. split; reflexivity. Qed.

(** The upper bound is the midnight that starts [to_date]: a record stamped
    later on that day is outside the interval. *)
Example filter_engine_time_of_day :
  filter_engine (mkCriteria 0 100 (Qmake 0 1))
    [Sample.in_range "Acme" 100 0; Sample.in_range "Acme" 100 12;
     Sample.in_range "Acme" 99 12]
  = [Sample.in_range "Acme" 100 0; Sample.in_range "Acme" 99 12].
Proof. reflexivity. Qed.

(* ================================================================== *)
(** * More on the loader *)

Lemma load_rows_source table :
  forall k d,
    In d (load_rows k table) ->
    exists j r,
      index d = k + j /\ nth_error table j = Some r /\ In d (explode_row (k + j) r).
Proof.
  induction table as [|r0 rest IH]; simpl; intros k d H; [contradiction|].
  apply in_app_or in H. destruct H as [H|H].
  - exists 0, r0. rewrite Nat.add_0_r.
    split; [now apply explode_row_index in H|]. split; [reflexivity | exact H].
  - destruct (IH (S k) d H) as [j [r [Hi [Hn He]]]].
    exists (S j), r. replace (k + S j) with (S k + j) by lia. auto.
Qed.

Lemma explode_row_buyer i r d :
  In d (explode_row i r) ->
  match Buyer_List d with
  | Some b => In b (buyer_tokens (fillna_str (src_Buyers r)))
  | None => buyer_tokens (fillna_str (src_Buyers r)) = []
  end.
Proof.
  intros H. pose proof (in_map Buyer_List _ _ H) as Hb.
  rewrite explode_row_buyers in Hb. unfold explode_cell in Hb.
  destruct (buyer_tokens (fillna_str (src_Buyers r))) as [|t ts].
  - destruct Hb as [<-|[]]. reflexivity.
  - destruct (Buyer_List d) as [b|].
    + apply in_map_iff in Hb. destruct Hb as [x [E Hx]].
      injection E as <-. exact Hx.
    + apply in_map_iff in Hb. destruct Hb as [x [E _]]. discriminate.
Qed.

(** X1: every row of the loaded frame carries, unchanged, the target, date,
    value, deal type and raw buyer cell of the source row it is labelled
    with; its formatted date is the one of that date; its buyer is one of
    the tokens of the raw buyer cell, and is missing only when the cell has
    no token. *)
Theorem load_data_keeps_source table d :
  In d (load_data table) ->
  exists r,
    nth_error table (index d) = Some r
    /\ Target_Company_Name d = src_Target_Company_Name r
    /\ Date d = src_Date r
    /\ Deal_Value d = src_Deal_Value r
    /\ Deal_Type d = src_Deal_Type r
    /\ Buyers d = src_Buyers r
    /\ Formatted_Date d = option_map strftime (src_Date r)
    /\ match Buyer_List d with
       | Some b => In b (buyer_tokens (fillna_str (src_Buyers r)))
       | None => buyer_tokens (fillna_str (src_Buyers r)) = []
       end.
Proof.
  intros H. destruct (load_rows_source table 0 d H) as [j [r [Hi [Hn He]]]].
  simpl in Hi, He. exists r. rewrite Hi.
  split; [exact Hn|].
  pose proof (explode_row_buyer j r d He) as Hb.
  unfold explode_row in He. apply in_map_iff in He.
  destruct He as [b [<- _]]. simpl in *. repeat split. exact Hb.
Qed.

Lemma load_data_keeps_source_witness :
  exists r,
    nth_error [Sample.three_buyers] 0 = Some r
    /\ src_Buyers r = Some "Alpha, Beta ,Gamma"%string
    /\ In "Beta"%string (buyer_tokens (fillna_str (src_Buyers r))).
Proof.
  destruct (load_data_keeps_source [Sample.three_buyers]
              (expand_row 0 Sample.three_buyers (Some "Beta"%string)))
    as [r [Hn [_ [_ [_ [_ [Hb [_ Ht]]]]]]]].
  - vm_compute. right. left. reflexivity.
  - exists r. split; [exact Hn|]. split; [symmetry; exact Hb | exact Ht].
Defined.

(** X2: a source row gives one expanded row per token of its buyer cell,
    repeated tokens included, and one row when the cell has no token: no
    source row is lost by the loader. *)
Theorem load_data_row_count table i r :
  nth_error table i = Some r ->
  List.length (rows_of i (load_data table))
  = Nat.max 1 (List.length (buyer_tokens (fillna_str (src_Buyers r)))).
Proof.
  intros H. rewrite (rows_of_load_data _ _ _ H).
  rewrite <- (length_map Buyer_List), explode_row_buyers.
  unfold explode_cell.
  destruct (buyer_tokens (fillna_str (src_Buyers r))) as [|t ts];
    [reflexivity|].
  rewrite length_map. simpl. lia.
Qed.

Lemma load_data_row_count_witness :
  List.length (rows_of 1 (load_data [Sample.blank_buyer; Sample.listed_twice]))
  = Nat.max 1 (List.length
                 (buyer_tokens (fillna_str (src_Buyers Sample.listed_twice)))).
Proof.
  apply (load_data_row_count [Sample.blank_buyer; Sample.listed_twice] 1
           Sample.listed_twice).
  reflexivity.
Defined.

Lemma split_comma_no_comma s :
  forall p, In p (PyStr.split_comma s) -> has_comma p = false.
Proof.
  induction s as [|c s IH]; simpl; intros p H.
  - destruct H as [<-|[]]. reflexivity.
  - destruct (Ascii.eqb c ",") eqn:E.
    + destruct H as [<-|H]; [reflexivity | auto].
    + destruct (PyStr.split_comma s) as [|t ts] eqn:Es.
      * destruct H as [<-|[]]. simpl. now rewrite E.
      * destruct H as [<-|H].
        -- simpl. rewrite E. apply IH. now left.
        -- apply IH. now right.
Qed.

Lemma lstrip_no_comma s :
  has_comma s = false -> has_comma (PyStr.lstrip s) = false.
Proof.
  induction s as [|c s IH]; simpl; [auto|].
  intros H. apply orb_false_iff in H. destruct H as [Hc Hs].
  destruct (PyStr.is_space c); [auto|]. simpl. now rewrite Hc, Hs.
Qed.

Lemma rstrip_no_comma s :
  has_comma s = false -> has_comma (PyStr.rstrip s) = false.
Proof.
  induction s as [|c s IH]; simpl; [auto|].
  intros H. apply orb_false_iff in H. destruct H as [Hc Hs].
  specialize (IH Hs).
  destruct (PyStr.rstrip s) as [|a t].
  - destruct (PyStr.is_space c); [reflexivity|]. simpl. now rewrite Hc.
  - cbn [has_comma]. rewrite Hc. exact IH.
Qed.

Lemma buyer_tokens_in x b :
  In b (buyer_tokens x) <->
  exists p, In p (PyStr.split_comma x) /\ PyStr.strip p = b /\ b <> EmptyString.
Proof.
  unfold buyer_tokens. rewrite in_map_iff. split.
  - intros [p [<- Hp]]. apply filter_In in Hp. destruct Hp as [Hp Ht].
    exists p. repeat split; [exact Hp|].
    intros E. rewrite E in Ht. discriminate.
  - intros [p [Hp [<- Hne]]]. exists p. split; [reflexivity|].
    apply filter_In. split; [exact Hp|].
    destruct (PyStr.strip p); [contradiction | reflexivity].
Qed.

(** X3: every buyer name in the loaded frame is non-empty, has no white
    space at either end and contains no comma. *)
Theorem load_data_buyer_names table d b :
  In d (load_data table) ->
  Buyer_List d = Some b ->
  b <> EmptyString
  /\ PyStr.no_leading_space b
  /\ no_trailing_space b
  /\ PyStr.strip b = b
  /\ has_comma b = false.
Proof.
  intros Hd Hb.
  destruct (load_rows_source table 0 d Hd) as [j [r [_ [_ He]]]].
  pose proof (explode_row_buyer _ r d He) as Ht.
  rewrite Hb in Ht. apply buyer_tokens_in in Ht.
  destruct Ht as [p [Hp [<- Hne]]].
  split; [exact Hne|].
  split; [unfold PyStr.strip;
          apply rstrip_no_leading_space, lstrip_no_leading_space|].
  split; [unfold no_trailing_space, PyStr.strip; apply rstrip_idempotent|].
  split; [apply strip_idempotent|].
  apply rstrip_no_comma, lstrip_no_comma.
  exact (split_comma_no_comma _ p Hp).
Qed.

Lemma load_data_buyer_names_witness :
  "Beta"%string <> EmptyString
  /\ PyStr.strip "Beta" = "Beta"%string
  /\ has_comma "Beta" = false.
Proof.
  destruct (load_data_buyer_names [Sample.three_buyers]
              (expand_row 0 Sample.three_buyers (Some "Beta"%string)) "Beta")
    as [H1 [_ [_ [H2 H3]]]].
  - vm_compute. right. left. reflexivity.
  - reflexivity.
  - split; [exact H1|]. split; [exact H2 | exact H3].
Defined.

(* ================================================================== *)
(** * More on the filter and the sidebar *)

Lemma date_of_floor t : (to_datetime (date_of t) <= t)%Z.
Proof.
  unfold to_datetime, date_of. rewrite Z.mul_comm.
  apply Z.mul_div_le. exact ns_per_day_pos.
Qed.

Lemma in_dates frame t :
  In (Some t) (map Date frame) <-> exists d, In d frame /\ Date d = Some t.
Proof.
  rewrite in_map_iff. split; intros [d [H1 H2]]; exists d; auto.
Qed.

Lemma in_values frame v :
  In (Some v) (map Deal_Value frame)
  <-> exists d, In d frame /\ Deal_Value d = Some v.
Proof.
  rewrite in_map_iff. split; intros [d [H1 H2]]; exists d; auto.
Qed.

Lemma default_criteria_some frame c :
  default_criteria frame = Some c ->
  exists tmin tmax vmin,
    date_min (map Date frame) = Some tmin
    /\ date_max (map Date frame) = Some tmax
    /\ value_min (map Deal_Value frame) = Some vmin
    /\ c = mkCriteria (date_of tmin) (date_of tmax) vmin.
Proof.
  unfold default_criteria, min_date, max_date, min_val.
  destruct (date_min (map Date frame)) as [tmin|]; [|discriminate].
  destruct (date_max (map Date frame)) as [tmax|]; [|discriminate].
  destruct (value_min (map Deal_Value frame)) as [vmin|]; [|discriminate].
  simpl. intros H. injection H as <-. exists tmin, tmax, vmin. auto.
Qed.

(** X4: with the criteria the sidebar starts from, neither the lower date
    bound nor the minimum value excludes a row: a row is shown exactly when
    its date and value are present and the date is not after the midnight
    that starts the latest day.  When every date of the frame is a
    midnight, the filtered frame is the frame without the rows that lack a
    date or a value. *)
Theorem default_criteria_filter frame c :
  default_criteria frame = Some c ->
  (forall d,
     In d (filter_engine c frame) <->
     In d frame
     /\ exists t v,
          Date d = Some t /\ Deal_Value d = Some v
          /\ (t <= to_datetime (to_date c))%Z)
  /\ ((forall d t, In d frame -> Date d = Some t ->
                   t = to_datetime (date_of t)) ->
      filter_engine c frame = filter dated_and_valued frame).
Proof.
  intros Hc.
  destruct (default_criteria_some frame c Hc)
    as [tmin [tmax [vmin [Emin [Emax [Ev ->]]]]]].
  assert (Hlow : forall d t, In d frame -> Date d = Some t ->
                             (to_datetime (date_of tmin) <= t)%Z).
  { intros d t Hin Ht. pose proof (date_of_floor tmin).
    assert (tmin <= t)%Z; [|lia].
    apply (reduce_bound Z.min Z.le) with (l := map Date frame);
      try assumption; try (intros; lia).
    apply in_dates. eauto. }
  assert (Hval : forall d v, In d frame -> Deal_Value d = Some v ->
                             Qle vmin v).
  { intros d v Hin Hv.
    apply (reduce_bound qmin Qle qmin_le_l qmin_le_r Qle_refl Qle_trans)
      with (l := map Deal_Value frame); [exact Ev|].
    apply in_values. eauto. }
  assert (Hmem : forall d,
             In d (filter_engine (mkCriteria (date_of tmin) (date_of tmax) vmin)
                     frame) <->
             In d frame
             /\ exists t v,
                  Date d = Some t /\ Deal_Value d = Some v
                  /\ (t <= to_datetime (date_of tmax))%Z).
  { intros d. unfold filter_engine. rewrite filter_In, mask_true. simpl.
    split.
    - intros [Hin [t [v [Ht [[_ H2] [Hv _]]]]]]. split; [exact Hin|].
      exists t, v. auto.
    - intros [Hin [t [v [Ht [Hv H2]]]]]. split; [exact Hin|].
      exists t, v. repeat split; eauto. }
  split; [exact Hmem|].
  intros Hmid. unfold filter_engine. apply filter_ext_in.
  intros d Hin.
  assert (Htop : forall t, Date d = Some t ->
                           (t <= to_datetime (date_of tmax))%Z).
  { intros t Ht.
    assert (Hmax : (t <= tmax)%Z).
    { apply (reduce_bound Z.max (fun a b => (b <= a)%Z))
        with (l := map Date frame) (m := tmax);
        try assumption; try (intros; lia).
      apply in_dates. eauto. }
    pose proof (reduce_in Z.max zmax_selects _ _ Emax) as Hi.
    apply in_dates in Hi. destruct Hi as [d' [Hd' Ht']].
    rewrite <- (Hmid d' tmax Hd' Ht'). exact Hmax. }
  unfold dated_and_valued.
  destruct (Date d) as [t|] eqn:Ht.
  - destruct (Deal_Value d) as [v|] eqn:Hv.
    + apply mask_true. exists t, v. simpl. repeat split; eauto.
    + unfold mask. rewrite Hv. simpl. apply andb_false_r.
  - unfold mask. rewrite Ht. reflexivity.
Qed.

Lemma default_criteria_filter_witness :
  default_criteria (load_data Sample.three_deals)
  = Some (mkCriteria 1 3 (Qmake 5 2))
  /\ filter_engine (mkCriteria 1 3 (Qmake 5 2)) (load_data Sample.three_deals)
     = filter dated_and_valued (load_data Sample.three_deals).
Proof.
  split; [reflexivity|].
  apply (default_criteria_filter (load_data Sample.three_deals)
           (mkCriteria 1 3 (Qmake 5 2))); [reflexivity|].
  intros d t Hin Ht. vm_compute in Hin.
  destruct Hin as [<-|[<-|[<-|[]]]]; injection Ht as <-; reflexivity.
Defined.

Lemma filter_absorbs {A : Type} (f g : A -> bool) (l : list A) :
  (forall x, f x = true -> g x = true) ->
  filter f (filter g l) = filter f l.
Proof.
  intros H. induction l as [|a l IH]; simpl; [reflexivity|].
  destruct (g a) eqn:Eg; simpl.
  - destruct (f a); [f_equal|]; exact IH.
  - destruct (f a) eqn:Ef; [|exact IH].
    apply H in Ef. congruence.
Qed.

Lemma mask_narrower c c' d :
  (from_date c <= from_date c')%Z ->
  (to_date c' <= to_date c)%Z ->
  Qle (deal_value c) (deal_value c') ->
  mask c' d = true -> mask c d = true.
Proof.
  intros Hf Ht Hv H. apply mask_true in H. apply mask_true.
  destruct H as [t [v [Hd [[H1 H2] [Hval Hmin]]]]].
  exists t, v. rewrite <- to_datetime_le in Hf, Ht.
  repeat split; try assumption; try lia.
  now apply Qle_trans with (deal_value c').
Qed.

(** X5: narrowing the criteria (a later start, an earlier end, a higher
    minimum) never brings a row in: the narrower selection is what the
    narrower criteria select from the wider selection, in the same order. *)
Theorem filter_engine_narrowing c c' (l : list Deal) :
  (from_date c <= from_date c')%Z ->
  (to_date c' <= to_date c)%Z ->
  Qle (deal_value c) (deal_value c') ->
  filter_engine c' l = filter_engine c' (filter_engine c l)
  /\ subsequence (filter_engine c' l) (filter_engine c l).
Proof.
  intros Hf Ht Hv.
  assert (E : filter_engine c' l = filter_engine c' (filter_engine c l)).
  { unfold filter_engine. symmetry. apply filter_absorbs.
    intros x. now apply mask_narrower. }
  split; [exact E|].
  rewrite E. apply filter_subsequence.
Qed.

Lemma filter_engine_narrowing_witness :
  filter_engine (mkCriteria 1 2 (Qmake 3 1)) (load_data Sample.three_deals)
  = filter_engine (mkCriteria 1 2 (Qmake 3 1))
      (filter_engine Sample.wide_open (load_data Sample.three_deals)).
Proof.
  apply (filter_engine_narrowing Sample.wide_open (mkCriteria 1 2 (Qmake 3 1))
           (load_data Sample.three_deals)); simpl; try lia.
  discriminate.
Defined.

Lemma unique_from_NoDup l : forall seen, NoDup (unique_from seen l).
Proof.
  induction l as [|x l IH]; intros seen; simpl; [constructor|].
  destruct (existsb (opt_eqb String.eqb x) seen); [apply IH|].
  constructor; [|apply IH].
  rewrite unique_from_in. simpl. tauto.
Qed.

Lemma unique_NoDup l : NoDup (unique l).
Proof. apply unique_from_NoDup. Qed.

Lemma dropna_NoDup {A : Type} (l : list (option A)) :
  NoDup l -> NoDup (dropna l).
Proof.
  induction 1 as [|x l Hn Hnd IH]; simpl; [constructor|].
  destruct x as [a|]; [|exact IH].
  constructor; [|exact IH]. now rewrite dropna_in.
Qed.

Lemma insert_str_NoDup s l :
  ~ In s l -> NoDup l -> NoDup (insert_str s l).
Proof.
  induction l as [|t l IH]; simpl; intros Hs Hl.
  - repeat constructor. auto.
  - destruct (String.leb s t).
    + constructor; [exact Hs | exact Hl].
    + inversion Hl as [|? ? Ht Hl']; subst.
      constructor.
      * rewrite insert_str_in. intros [E|H]; [subst; apply Hs; now left | auto].
      * apply IH; [|exact Hl']. intros H. apply Hs. now right.
Qed.

Lemma sorted_str_NoDup l : NoDup l -> NoDup (sorted_str l).
Proof.
  unfold sorted_str. induction 1 as [|x l Hn Hnd IH]; simpl; [constructor|].
  apply insert_str_NoDup; [|exact IH].
  fold (sorted_str l). now rewrite sorted_str_in.
Qed.

Lemma string_leb_flip s t : String.leb s t = false -> String.leb t s = true.
Proof.
  intros H. destruct (String.leb_total s t) as [E|E]; [congruence | exact E].
Qed.

Lemma insert_str_sorted s l :
  Sorted (fun a b => String.leb a b = true) l ->
  Sorted (fun a b => String.leb a b = true) (insert_str s l).
Proof.
  induction l as [|t l IH]; simpl; intros H.
  - repeat constructor.
  - destruct (String.leb s t) eqn:E.
    + constructor; [exact H|]. constructor. exact E.
    + inversion H as [|? ? Hs Hh]; subst.
      constructor; [now apply IH|].
      destruct l as [|u l]; simpl.
      * constructor. now apply string_leb_flip.
      * destruct (String.leb s u).
        -- constructor. now apply string_leb_flip.
        -- constructor. now inversion Hh.
Qed.

Lemma sorted_str_sorted l :
  Sorted (fun a b => String.leb a b = true) (sorted_str l).
Proof.
  unfold sorted_str. induction l as [|s l IH]; simpl.
  - constructor.
  - now apply insert_str_sorted.
Qed.

Lemma string_leb_neq_ltb s t :
  String.leb s t = true -> s <> t -> String.ltb s t = true.
Proof.
  unfold String.leb, String.ltb.
  destruct (String.compare s t) eqn:E; try discriminate; auto.
  intros _ H. exfalso. apply H. now apply String.compare_eq_iff.
Qed.

Lemma sorted_strict l :
  Sorted (fun a b => String.leb a b = true) l ->
  NoDup l ->
  Sorted (fun a b => String.ltb a b = true) l.
Proof.
  induction 1 as [|x l Hs IH Hh]; intros Hnd; constructor.
  - apply IH. now inversion Hnd.
  - destruct Hh as [|y l' Hxy]; constructor.
    apply string_leb_neq_ltb; [exact Hxy|].
    intros ->. inversion Hnd as [|? ? Hn _]. apply Hn. now left.
Qed.

(** X6: the buyer options of the sidebar are the buyers of the filtered
    frame, each listed once, in strictly ascending order; a missing buyer is
    never an option. *)
Theorem unique_buyers_options (filtered : list Deal) :
  Sorted (fun a b => String.ltb a b = true) (unique_buyers filtered)
  /\ NoDup (unique_buyers filtered)
  /\ forall b,
       In b (unique_buyers filtered)
       <-> exists d, In d filtered /\ Buyer_List d = Some b.
Proof.
  assert (Hnd : NoDup (unique_buyers filtered)).
  { unfold unique_buyers. apply sorted_str_NoDup, dropna_NoDup, unique_NoDup. }
  split; [|split; [exact Hnd|]].
  - apply sorted_strict; [apply sorted_str_sorted | exact Hnd].
  - intros b. rewrite unique_buyers_group_keys, group_keys_in, in_map_iff.
    split; intros [d [H1 H2]]; exists d; auto.
Qed.

(** X7: a buyer is offered only if it has a deal inside the date range
    and at or above the minimum value: names whose deals all lie outside
    the criteria are not among the options. *)
Theorem unique_buyers_in_range c table b :
  In b (unique_buyers (filtered_set c table)) ->
  exists d t v,
    In d (load_data table)
    /\ Buyer_List d = Some b
    /\ Date d = Some t
    /\ (to_datetime (from_date c) <= t <= to_datetime (to_date c))%Z
    /\ Deal_Value d = Some v
    /\ Qle (deal_value c) v.
Proof.
  intros H. rewrite unique_buyers_group_keys, group_keys_in in H.
  apply in_map_iff in H. destruct H as [d [Hb Hin]].
  unfold filtered_set, filter_engine in Hin. apply filter_In in Hin.
  destruct Hin as [Hin Hm]. apply mask_true in Hm.
  destruct Hm as [t [v [Ht [Hr [Hv Hq]]]]].
  exists d, t, v. repeat split; try assumption; apply Hr.
Qed.

Lemma unique_buyers_in_range_witness :
  exists d t v,
    In d (load_data Sample.three_deals)
    /\ Buyer_List d = Some "Alpha"%string
    /\ Date d = Some t
    /\ (to_datetime 2 <= t <= to_datetime 3)%Z
    /\ Deal_Value d = Some v
    /\ Qle (Qmake 3 1) v.
Proof.
  apply (unique_buyers_in_range (mkCriteria 2 3 (Qmake 3 1))
           Sample.three_deals "Alpha").
  vm_compute. left. reflexivity.
Defined.

(* ================================================================== *)
(** * More on the export *)

Lemma existsb_same_buyer_seen r seen seenB :
  (forall s, In s seen -> In (Buyer_List s) seenB) ->
  existsb (same_buyer_deal r) seen = true ->
  In (Buyer_List r) seenB.
Proof.
  intros Hinv H. apply existsb_exists in H. destruct H as [s [Hs E]].
  apply same_buyer_deal_buyer in E. rewrite E. now apply Hinv.
Qed.

(** Dropping exact duplicates keeps the first row of every buyer, so the
    buyers come in the same order of first appearance. *)
Lemma unique_from_drop_duplicates l :
  forall seen seenB,
    (forall s, In s seen -> In (Buyer_List s) seenB) ->
    unique_from seenB
      (map Buyer_List (drop_duplicates_from same_buyer_deal seen l))
    = unique_from seenB (map Buyer_List l).
Proof.
  induction l as [|r l IH]; intros seen seenB Hinv; [reflexivity|].
  cbn [drop_duplicates_from map unique_from].
  destruct (existsb (same_buyer_deal r) seen) eqn:E.
  - pose proof (existsb_same_buyer_seen r seen seenB Hinv E) as Hr.
    apply existsb_opt_eqb in Hr. rewrite Hr. now apply IH.
  - cbn [map unique_from].
    destruct (existsb (opt_eqb String.eqb (Buyer_List r)) seenB) eqn:Eb.
    + apply IH. intros s [<-|Hs]; [now apply existsb_opt_eqb | auto].
    + f_equal. apply IH.
      intros s [<-|Hs]; [now left | right; auto].
Qed.

Lemma unique_drop_duplicates data :
  unique (map Buyer_List (drop_duplicates same_buyer_deal data))
  = unique (map Buyer_List data).
Proof.
  apply unique_from_drop_duplicates. intros s [].
Qed.

Lemma mapM_length {A B : Type} (f : A -> option B) (l : list A) :
  forall rs, mapM f l = Some rs -> List.length rs = List.length l.
Proof.
  induction l as [|a l IH]; simpl; intros rs H.
  - injection H as <-. reflexivity.
  - destruct (f a); [|discriminate]. simpl in H.
    destruct (mapM f l) as [rs'|]; [|discriminate]. simpl in H.
    injection H as <-. simpl. now rewrite (IH rs' eq_refl).
Qed.

Lemma insert_str_length s l :
  List.length (insert_str s l) = S (List.length l).
Proof.
  induction l as [|t l IH]; simpl; [reflexivity|].
  destruct (String.leb s t); simpl; auto.
Qed.

Lemma sorted_str_length l : List.length (sorted_str l) = List.length l.
Proof.
  unfold sorted_str. induction l as [|s l IH]; simpl; [reflexivity|].
  rewrite insert_str_length. auto.
Qed.

Lemma dropna_length {A : Type} (l : list (option A)) :
  List.length (dropna l) <= List.length l.
Proof. induction l as [|[a|] l IH]; simpl; lia. Qed.

Lemma group_keys_length data :
  List.length (group_keys data)
  <= List.length (unique (map Buyer_List data)).
Proof. unfold group_keys. rewrite sorted_str_length. apply dropna_length. Qed.

(** What the call of line 143 gives on a frame of complete rows. *)
Lemma excel_output_complete data :
  (forall d, In d data -> complete_row d) ->
  exists wb,
    prepare_excel_summary data = Some wb
    /\ excel_output data
       = if (Z.of_nat (List.length (unique (map Buyer_List data)))
             <=? max_rows)%Z
            && (Z.of_nat (max_deals data) <=? 5461)%Z
         then Some wb else None.
Proof.
  intros Hc.
  destruct (prepare_excel_summary_complete data Hc) as [rs [Hs [Hp _]]].
  eexists. split; [exact Hp|].
  unfold excel_output. rewrite Hp. cbn [bind].
  unfold to_excel. cbn [Buyer_Summary Buyer_Deal_Details rows columns].
  rewrite col_headers_length.
  assert (Hr : List.length
                 (from_dict (deal_dict (drop_duplicates same_buyer_deal data)))
               = List.length (unique (map Buyer_List data))).
  { unfold from_dict, deal_dict. rewrite !length_map.
    now rewrite unique_drop_duplicates. }
  rewrite Hr.
  pose proof (mapM_length _ _ rs Hs) as Hl.
  pose proof (group_keys_length data) as Hk.
  unfold sheet_fits, max_rows, max_cols.
  destruct (Z.leb_spec (Z.of_nat (List.length rs)) 1048576),
           (Z.leb_spec (Z.of_nat 6) 16384),
           (Z.leb_spec
              (Z.of_nat (List.length (unique (map Buyer_List data)))) 1048576),
           (Z.leb_spec (Z.of_nat (1 + 3 * max_deals data)) 16384),
           (Z.leb_spec (Z.of_nat (max_deals data)) 5461);
    cbn [andb]; try reflexivity; lia.
Qed.

(** X8: on a filtered frame the export button is absent exactly when the
    frame is empty, and a click raises exactly when a sheet would be too
    large: more than 1048576 distinct buyer cells, or a buyer holding more
    than 5461 deals; otherwise the workbook built from the frame is handed
    to the download button. *)
Theorem export_on_click_filtered c table :
  (export_on_click (filtered_set c table) = NotOffered
   <-> filtered_set c table = [])
  /\ (export_on_click (filtered_set c table) = ExportRaised
      <-> filtered_set c table <> []
          /\ ((max_rows
               < Z.of_nat
                   (List.length
                      (unique (map Buyer_List (filtered_set c table)))))%Z
              \/ (5461 < Z.of_nat (max_deals (filtered_set c table)))%Z))
  /\ (forall wb,
        export_on_click (filtered_set c table) = Download wb ->
        prepare_excel_summary (filtered_set c table) = Some wb).
Proof.
  destruct (excel_output_complete _ (filtered_set_complete c table))
    as [wb0 [Hp Hx]].
  set (data := filtered_set c table) in *.
  unfold export_on_click. rewrite Hx. unfold max_rows.
  destruct data as [|d l] eqn:Ed.
  - split; [tauto|]. split; [|discriminate].
    split; [discriminate | tauto].
  - destruct (Z.leb_spec
                (Z.of_nat (List.length (unique (map Buyer_List (d :: l)))))
                1048576),
             (Z.leb_spec (Z.of_nat (max_deals (d :: l))) 5461); cbn [andb].
    + split; [split; discriminate|]. split.
      * split; [discriminate|]. intros [_ [H1|H1]]; lia.
      * intros wb E. injection E as <-. exact Hp.
    + split; [split; discriminate|]. split; [|discriminate].
      split; [|reflexivity]. intros _. split; [discriminate | now right].
    + split; [split; discriminate|]. split; [|discriminate].
      split; [|reflexivity]. intros _. split; [discriminate | now left].
    + split; [split; discriminate|]. split; [|discriminate].
      split; [|reflexivity]. intros _. split; [discriminate | now left].
Qed.

Lemma reduce_all_missing {A : Type} (pick : A -> A -> A) (l : list (option A)) :
  (forall x, In x l -> x = None) -> reduce pick l = None.
Proof.
  induction l as [|x l IH]; simpl; intros H; [reflexivity|].
  rewrite (H x (or_introl eq_refl)). apply IH. intros y Hy. apply H. now right.
Qed.

Lemma mapM_none {A B : Type} (f : A -> option B) (l : list A) a :
  In a l -> f a = None -> mapM f l = None.
Proof.
  induction l as [|x l IH]; simpl; intros H E; [contradiction|].
  destruct H as [->|H].
  - rewrite E. reflexivity.
  - destruct (f x); [|reflexivity]. simpl. rewrite (IH H E). reflexivity.
Qed.

(** X9: on a frame in which some buyer has no deal with a date, which the
    filter never lets through, [prepare_excel_summary] raises, and so does a
    click on the export button: the summary asks the missing date for its
    text. *)
Theorem prepare_excel_summary_undated data b :
  In (Some b) (map Buyer_List data) ->
  (forall d, In d data -> Buyer_List d = Some b -> Date d = None) ->
  prepare_excel_summary data = None /\ export_on_click data = ExportRaised.
Proof.
  intros Hb Hd.
  assert (E : prepare_excel_summary data = None).
  { unfold prepare_excel_summary, summary.
    rewrite (mapM_none _ _ b); [reflexivity | now apply group_keys_in |].
    unfold agg, date_min. rewrite reduce_all_missing; [reflexivity|].
    intros x Hx. apply in_map_iff in Hx. destruct Hx as [d [<- Hin]].
    apply filter_In in Hin. destruct Hin as [Hin Hh].
    apply Hd; [exact Hin | now apply has_buyer_iff]. }
  split; [exact E|].
  unfold export_on_click, excel_output. rewrite E.
  destruct data; [contradiction | reflexivity].
Qed.

Lemma prepare_excel_summary_undated_witness :
  prepare_excel_summary
    [expand_row 0 (mkSource (Some "Acme"%string) None (Some (Qmake 5 1)) None
                     (Some "Alpha"%string)) (Some "Alpha"%string)] = None.
Proof.
  apply (prepare_excel_summary_undated
           [expand_row 0 (mkSource (Some "Acme"%string) None (Some (Qmake 5 1))
                            None (Some "Alpha"%string)) (Some "Alpha"%string)]
           "Alpha").
  - left. reflexivity.
  - intros d [<-|[]] _. reflexivity.
Defined.

Lemma mapM_keys {A B : Type} (f : A -> option B) (key : B -> A) (l : list A) :
  (forall a r, f a = Some r -> key r = a) ->
  forall rs, mapM f l = Some rs -> map key rs = l.
Proof.
  intros Hk. induction l as [|a l IH]; simpl; intros rs H.
  - injection H as <-. reflexivity.
  - destruct (f a) as [r|] eqn:E; [|discriminate]. simpl in H.
    destruct (mapM f l) as [rs'|]; [|discriminate]. simpl in H.
    injection H as <-. simpl. rewrite (Hk a r E), (IH rs' eq_refl).
    reflexivity.
Qed.

(** X10: the 'Buyer Summary' sheet has one row for each buyer option of
    the sidebar, in the order of the options. *)
Theorem summary_rows_follow_options data wb :
  prepare_excel_summary data = Some wb ->
  map Buyer (Buyer_Summary wb) = unique_buyers data.
Proof.
  unfold prepare_excel_summary. intros H.
  destruct (summary data) as [rs|] eqn:Hs; [|discriminate].
  cbn [bind] in H.
  destruct (deals_df (drop_duplicates same_buyer_deal data)); [|discriminate].
  cbn [bind] in H. injection H as <-. cbn [Buyer_Summary].
  rewrite unique_buyers_group_keys.
  apply (mapM_keys (fun b => agg b data)); [|exact Hs].
  intros a r. apply agg_buyer.
Qed.

Lemma summary_rows_follow_options_witness :
  exists wb,
    prepare_excel_summary (filtered_set Sample.wide_open Sample.one_three_five)
    = Some wb
    /\ map Buyer (Buyer_Summary wb) = ["Five"; "One"; "Three"]%string.
Proof.
  destruct (prepare_excel_summary
              (filtered_set Sample.wide_open Sample.one_three_five))
    as [wb|] eqn:E; [|vm_compute in E; discriminate].
  exists wb. split; [reflexivity|].
  apply (summary_rows_follow_options
           (filtered_set Sample.wide_open Sample.one_three_five) wb E).
Defined.

Lemma prepare_excel_summary_details data wb :
  prepare_excel_summary data = Some wb ->
  rows (Buyer_Deal_Details wb)
  = from_dict (deal_dict (drop_duplicates same_buyer_deal data)).
Proof.
  unfold prepare_excel_summary. intros H.
  destruct (summary data); [|discriminate]. cbn [bind] in H.
  rewrite deals_df_shape in H. cbn [bind] in H.
  injection H as <-. reflexivity.
Qed.

(** X11: the 'Buyer Deal Details' sheet has one row for each distinct
    content of the buyer cell, in the order of first appearance in the
    frame.  Rows without a buyer share one row of the sheet: its name cell
    and all its other cells are empty. *)
Theorem details_rows_follow_buyers data wb :
  prepare_excel_summary data = Some wb ->
  map fst (rows (Buyer_Deal_Details wb)) = unique (map Buyer_List data)
  /\ NoDup (map fst (rows (Buyer_Deal_Details wb)))
  /\ (In None (map fst (rows (Buyer_Deal_Details wb)))
      <-> exists d, In d data /\ Buyer_List d = None)
  /\ forall cells,
       In (None, cells) (rows (Buyer_Deal_Details wb)) ->
       cells = repeat CEmpty (3 * max_deals data).
Proof.
  intros H. rewrite (prepare_excel_summary_details data wb H).
  assert (E : map fst
                (from_dict (deal_dict (drop_duplicates same_buyer_deal data)))
              = unique (map Buyer_List data)).
  { unfold from_dict, deal_dict. rewrite !map_map. cbn [fst].
    rewrite map_id. apply unique_drop_duplicates. }
  rewrite E. split; [reflexivity|]. split; [apply unique_NoDup|]. split.
  - rewrite unique_in, in_map_iff.
    split; intros [d [H1 H2]]; exists d; auto.
  - intros cells Hc. apply details_row_shape in Hc. destruct Hc as [_ ->].
    rewrite filter_buyer_is_none. simpl. now rewrite Nat.sub_0_r.
Qed.

Lemma details_rows_follow_buyers_witness :
  exists wb,
    prepare_excel_summary
      (filtered_set Sample.wide_open
         [Sample.three_buyers; Sample.blank_buyer; Sample.listed_twice])
    = Some wb
    /\ map fst (rows (Buyer_Deal_Details wb))
       = [Some "Alpha"; Some "Beta"; Some "Gamma"; None]%string.
Proof.
  destruct (prepare_excel_summary
              (filtered_set Sample.wide_open
                 [Sample.three_buyers; Sample.blank_buyer;
                  Sample.listed_twice]))
    as [wb|] eqn:E; [|vm_compute in E; discriminate].
  exists wb. split; [reflexivity|].
  apply (details_rows_follow_buyers _ wb E).
Defined.

(* ================================================================== *)
(** * The per-buyer view *)

Lemma same_buyer_deal_of_buyer b r s :
  Buyer_List r = Some b ->
  same_buyer_deal r s = has_buyer b s && same_deal r s.
Proof.
  intros Hr. unfold same_buyer_deal, has_buyer. rewrite Hr.
  destruct (Buyer_List s) as [x|]; simpl; [|reflexivity].
  now rewrite String.eqb_sym.
Qed.

Lemma existsb_same_buyer_deal_filter b r seen :
  Buyer_List r = Some b ->
  existsb (same_buyer_deal r) seen
  = existsb (same_deal r) (filter (has_buyer b) seen).
Proof.
  intros Hr. induction seen as [|s seen IH]; simpl; [reflexivity|].
  rewrite (same_buyer_deal_of_buyer b r s Hr), IH.
  destruct (has_buyer b s); reflexivity.
Qed.

(** Dropping the duplicates of the whole frame and then selecting a buyer
    gives what selecting the buyer and then dropping its duplicates gives. *)
Lemma drop_duplicates_from_buyer b l :
  forall seen,
    filter (has_buyer b) (drop_duplicates_from same_buyer_deal seen l)
    = drop_duplicates_from same_deal
        (filter (has_buyer b) seen) (filter (has_buyer b) l).
Proof.
  induction l as [|r l IH]; intros seen; [reflexivity|].
  cbn [drop_duplicates_from filter].
  destruct (has_buyer b r) eqn:Hb.
  - cbn [drop_duplicates_from].
    rewrite <- (existsb_same_buyer_deal_filter b r seen)
      by (now apply has_buyer_iff).
    destruct (existsb (same_buyer_deal r) seen); [apply IH|].
    cbn [filter]. rewrite Hb. f_equal.
    rewrite IH. cbn [filter]. rewrite Hb. reflexivity.
  - destruct (existsb (same_buyer_deal r) seen); [apply IH|].
    cbn [filter]. rewrite Hb. rewrite IH. cbn [filter]. rewrite Hb.
    reflexivity.
Qed.

Lemma drop_duplicates_buyer b data :
  filter (has_buyer b) (drop_duplicates same_buyer_deal data)
  = drop_duplicates same_deal (filter (has_buyer b) data).
Proof. apply (drop_duplicates_from_buyer b data []). Qed.

Lemma buyer_df_details data b :
  buyer_df data b
  = sort_values_Date
      (filter (buyer_is (Some b)) (drop_duplicates same_buyer_deal data)).
Proof.
  unfold buyer_df.
  change (buyer_is (Some b)) with (has_buyer b).
  now rewrite drop_duplicates_buyer.
Qed.

(** X12: the investments listed in the per-buyer view are the deals of the
    buyer's row in the 'Buyer Deal Details' sheet, in the same order: the
    row is the triples of the view's rows followed by empty cells, and the
    view lists as many deals as the buyer holds once exact duplicates are
    dropped. *)
Theorem buyer_df_matches_details data wb b :
  prepare_excel_summary data = Some wb ->
  In (Some b) (map Buyer_List data) ->
  details_row wb b
  = Some (flat_map triple (buyer_df data b)
          ++ repeat CEmpty (3 * (max_deals data - deals_held data b)))
  /\ List.length (buyer_df data b) = deals_held data b.
Proof.
  intros Hp Hb. split.
  - unfold details_row. rewrite (prepare_excel_summary_details data wb Hp).
    unfold from_dict. rewrite frame_width_max_deals.
    unfold deal_dict. rewrite map_map. cbn [fst snd].
    rewrite unique_drop_duplicates.
    assert (Hu : In (Some b) (unique (map Buyer_List data)))
      by (now apply unique_in).
    pose proof (unique_NoDup (map Buyer_List data)) as Hnd.
    induction (unique (map Buyer_List data)) as [|x l IH]; [contradiction|].
    cbn [map find fst].
    destruct (opt_eqb String.eqb x (Some b)) eqn:E.
    + apply opt_eqb_string_eq in E. subst x. cbn [option_map snd].
      unfold pad. rewrite deal_info_length. unfold deal_info.
      rewrite <- buyer_df_details.
      change (List.length
                (filter (buyer_is (Some b))
                   (drop_duplicates same_buyer_deal data)))
        with (deals_held data b).
      do 2 f_equal. f_equal. lia.
    + destruct Hu as [->|Hu].
      * rewrite (proj2 (opt_eqb_string_eq (Some b) (Some b)) eq_refl) in E.
        discriminate.
      * apply IH; [exact Hu | now inversion Hnd].
  - rewrite buyer_df_details, sort_values_Date_length. reflexivity.
Qed.

Lemma buyer_df_matches_details_witness :
  exists wb,
    prepare_excel_summary (filtered_set Sample.wide_open Sample.one_three_five)
    = Some wb
    /\ List.length
         (buyer_df (filtered_set Sample.wide_open Sample.one_three_five)
            "Three")
       = deals_held (filtered_set Sample.wide_open Sample.one_three_five)
           "Three".
Proof.
  destruct (prepare_excel_summary
              (filtered_set Sample.wide_open Sample.one_three_five))
    as [wb|] eqn:E; [|vm_compute in E; discriminate].
  exists wb. split; [reflexivity|].
  apply (buyer_df_matches_details _ wb "Three" E).
  vm_compute. right. left. reflexivity.
Defined.

Lemma same_deal_refl x : same_deal x x = true.
Proof.
  unfold same_deal. rewrite !andb_true_iff. repeat split.
  - now apply opt_eqb_string_eq.
  - destruct (Date x); simpl; [apply Z.eqb_refl | reflexivity].
  - destruct (Deal_Value x); simpl; [apply Qeq_bool_refl | reflexivity].
Qed.

Lemma same_deal_date x y : same_deal x y = true -> Date x = Date y.
Proof.
  unfold same_deal. rewrite !andb_true_iff. intros [[_ H] _].
  destruct (Date x), (Date y); simpl in H; try discriminate; [|reflexivity].
  apply Z.eqb_eq in H. now subst.
Qed.

Lemma same_deal_value x y v :
  same_deal x y = true -> Deal_Value x = Some v ->
  exists w, Deal_Value y = Some w /\ Qeq v w.
Proof.
  unfold same_deal. rewrite !andb_true_iff. intros [_ H] Hv.
  rewrite Hv in H. destruct (Deal_Value y) as [w|]; simpl in H;
    [|discriminate].
  exists w. split; [reflexivity | now apply Qeq_bool_eq].
Qed.

(** The rows of the view are rows of the buyer, and every row of the buyer
    has the target, date and value of a row of the view. *)
Lemma buyer_df_rows data b :
  (forall x, In x (buyer_df data b) -> In x (group b data))
  /\ (forall x, In x (group b data) ->
        exists y, In y (buyer_df data b) /\ same_deal x y = true).
Proof.
  unfold buyer_df, group. change (buyer_is (Some b)) with (has_buyer b).
  split.
  - intros x H. rewrite sort_values_Date_in in H.
    now apply drop_duplicates_subset in H.
  - intros x H.
    destruct (drop_duplicates_represents same_deal _ x same_deal_refl H)
      as [y [Hy E]].
    exists y. split; [now rewrite sort_values_Date_in | exact E].
Qed.

Lemma extremes_transfer (g g' : list Deal) t1 t2 v1 v2 :
  (forall x, In x g' -> In x g) ->
  (forall x, In x g -> exists y, In y g' /\ same_deal x y = true) ->
  earliest g' t1 -> latest g' t2 -> smallest g' v1 -> largest g' v2 ->
  earliest g t1 /\ latest g t2 /\ smallest g v1 /\ largest g v2.
Proof.
  intros Hsub Hrep [I1 B1] [I2 B2] [I3 B3] [I4 B4].
  assert (Hd : forall t, In (Some t) (map Date g') -> In (Some t) (map Date g)).
  { intros t H. apply in_dates in H. destruct H as [d [H1 H2]].
    apply in_dates. eauto. }
  assert (Hv : forall v, In (Some v) (map Deal_Value g') ->
                         In (Some v) (map Deal_Value g)).
  { intros v H. apply in_values in H. destruct H as [d [H1 H2]].
    apply in_values. eauto. }
  assert (Hd' : forall t, In (Some t) (map Date g) ->
                          In (Some t) (map Date g')).
  { intros t H. apply in_dates in H. destruct H as [d [H1 H2]].
    destruct (Hrep d H1) as [y [Hy E]]. apply same_deal_date in E.
    apply in_dates. exists y. split; [exact Hy | congruence]. }
  assert (Hv' : forall v, In (Some v) (map Deal_Value g) ->
                          exists w, In (Some w) (map Deal_Value g') /\ Qeq v w).
  { intros v H. apply in_values in H. destruct H as [d [H1 H2]].
    destruct (Hrep d H1) as [y [Hy E]].
    destruct (same_deal_value d y v E H2) as [w [Hw Hq]].
    exists w. split; [|exact Hq]. apply in_values. eauto. }
  unfold earliest, latest, smallest, largest. repeat split; auto.
  - intros v' H. destruct (Hv' v' H) as [w [Hw Hq]].
    rewrite Hq. now apply B3.
  - intros v' H. destruct (Hv' v' H) as [w [Hw Hq]].
    rewrite Hq. now apply B4.
Qed.

(** The view of a buyer that has a row in a frame of complete rows. *)
Lemma render_buyer_complete data b :
  (forall d, In d data -> complete_row d) ->
  In (Some b) (map Buyer_List data) ->
  exists t1 t2 v1 v2,
    render_buyer data b
    = Stats {| Total_Deals := deals_held data b;
               First_Investment := strftime t1;
               Most_Recent_Investment := strftime t2;
               Shown_Min_Deal_Value := Some (round2 v1);
               Shown_Max_Deal_Value := Some (round2 v2) |}
    /\ 1 <= deals_held data b
    /\ earliest (group b data) t1 /\ latest (group b data) t2
    /\ smallest (group b data) v1 /\ largest (group b data) v2.
Proof.
  intros Hc Hb.
  destruct (buyer_df_rows data b) as [Hsub Hrep].
  destruct (group_nonempty data b Hb) as [d0 Hd0].
  destruct (Hrep d0 Hd0) as [y [Hy _]].
  assert (Hcy : complete_row y).
  { apply Hc. apply Hsub in Hy. unfold group in Hy.
    apply filter_In in Hy. tauto. }
  destruct (group_extremes (buyer_df data b) y Hy Hcy)
    as [t1 [t2 [v1 [v2 [E1 [H1 [E2 [H2 [E3 [H3 [E4 H4]]]]]]]]]]].
  destruct (extremes_transfer (group b data) (buyer_df data b) t1 t2 v1 v2
              Hsub Hrep H1 H2 H3 H4) as [G1 [G2 [G3 G4]]].
  assert (Hlen : List.length (buyer_df data b) = deals_held data b).
  { rewrite buyer_df_details, sort_values_Date_length. reflexivity. }
  exists t1, t2, v1, v2.
  split; [|split; [|tauto]].
  - unfold render_buyer. cbv zeta.
    unfold date_min, date_max, value_min, value_max in *.
    rewrite E1, E2, E3, E4, Hlen. simpl.
    destruct (buyer_df data b); [contradiction | reflexivity].
  - rewrite <- Hlen. destruct (buyer_df data b); [contradiction | simpl; lia].
Qed.

(** X13: for a buyer of the filtered frame the per-buyer view shows the
    number of the buyer's deals once exact duplicates are dropped, the
    earliest and the latest of the buyer's dates, and the smallest and the
    largest of the buyer's values to two decimals. *)
Theorem render_buyer_stats c table b :
  In (Some b) (map Buyer_List (filtered_set c table)) ->
  exists t1 t2 v1 v2,
    render_buyer (filtered_set c table) b
    = Stats {| Total_Deals := deals_held (filtered_set c table) b;
               First_Investment := strftime t1;
               Most_Recent_Investment := strftime t2;
               Shown_Min_Deal_Value := Some (round2 v1);
               Shown_Max_Deal_Value := Some (round2 v2) |}
    /\ earliest (group b (filtered_set c table)) t1
    /\ latest (group b (filtered_set c table)) t2
    /\ smallest (group b (filtered_set c table)) v1
    /\ largest (group b (filtered_set c table)) v2.
Proof.
  intros Hb.
  destruct (render_buyer_complete _ b (filtered_set_complete c table) Hb)
    as [t1 [t2 [v1 [v2 [E [_ H]]]]]].
  exists t1, t2, v1, v2. split; [exact E | exact H].
Qed.

Lemma render_buyer_stats_witness :
  exists t1 t2 v1 v2,
    render_buyer (filtered_set Sample.wide_open Sample.three_deals) "Alpha"
    = Stats {| Total_Deals :=
                 deals_held (filtered_set Sample.wide_open Sample.three_deals)
                   "Alpha";
               First_Investment := strftime t1;
               Most_Recent_Investment := strftime t2;
               Shown_Min_Deal_Value := Some (round2 v1);
               Shown_Max_Deal_Value := Some (round2 v2) |}.
Proof.
  destruct (render_buyer_stats Sample.wide_open Sample.three_deals "Alpha")
    as [t1 [t2 [v1 [v2 [E _]]]]].
  - vm_compute. left. reflexivity.
  - exists t1, t2, v1, v2. exact E.
Defined.

Lemma render_buyer_absent data b :
  ~ In (Some b) (map Buyer_List data) -> render_buyer data b = NoDealsFound.
Proof.
  intros H. unfold render_buyer. cbv zeta.
  assert (E : filter (buyer_is (Some b)) data = []).
  { change (buyer_is (Some b)) with (has_buyer b).
    destruct (filter (has_buyer b) data) as [|d l] eqn:Ef; [reflexivity|].
    exfalso. apply H.
    assert (Hd : In d (filter (has_buyer b) data)) by (rewrite Ef; now left).
    apply filter_In in Hd. destruct Hd as [Hin Hb].
    apply has_buyer_iff in Hb. rewrite <- Hb. now apply in_map. }
  unfold buyer_df. rewrite E. reflexivity.
Qed.

(** X14: the warning "No deals found" shows for a name exactly when the
    filtered frame holds no row of that buyer, and the view never stops on
    a missing date. *)
Theorem render_buyer_warning c table b :
  (render_buyer (filtered_set c table) b = NoDealsFound
   <-> ~ In (Some b) (map Buyer_List (filtered_set c table)))
  /\ render_buyer (filtered_set c table) b <> Raised.
Proof.
  destruct (in_dec option_eq_dec_string (Some b)
              (map Buyer_List (filtered_set c table))) as [Hin|Hout].
  - destruct (render_buyer_complete _ b (filtered_set_complete c table) Hin)
      as [t1 [t2 [v1 [v2 [E _]]]]].
    rewrite E. split; [|discriminate].
    split; [discriminate | contradiction].
  - rewrite (render_buyer_absent _ b Hout). split; [|discriminate].
    split; auto.
Qed.

(** X15: when the selected buyers are taken from the options, as the
    multiselect makes them be, the display has one block per selected
    buyer, in the order selected, and every block shows statistics over at
    least one deal: no warning, no exception. *)
Theorem main_display_offered c table selected :
  selected <> [] ->
  (forall b, In b selected -> In b (unique_buyers (filtered_set c table))) ->
  exists views,
    main_display (filtered_set c table) selected = Views views
    /\ map fst views = selected
    /\ forall b r, In (b, r) views ->
         exists s, r = Stats s
                   /\ Total_Deals s = deals_held (filtered_set c table) b
                   /\ 1 <= Total_Deals s.
Proof.
  intros Hne Hsel.
  exists (map (fun buyer => (buyer, render_buyer (filtered_set c table) buyer))
              selected).
  split; [|split].
  - unfold main_display. destruct selected; [contradiction | reflexivity].
  - rewrite map_map. cbn [fst]. apply map_id.
  - intros b r H. apply in_map_iff in H. destruct H as [b' [E Hb]].
    injection E as -> <-.
    apply Hsel in Hb. rewrite unique_buyers_group_keys, group_keys_in in Hb.
    destruct (render_buyer_complete _ b (filtered_set_complete c table) Hb)
      as [t1 [t2 [v1 [v2 [E [Hone _]]]]]].
    rewrite E. eexists. split; [reflexivity|]. split; [reflexivity | exact Hone].
Qed.

Lemma main_display_offered_witness :
  exists views,
    main_display (filtered_set Sample.wide_open Sample.one_three_five)
      ["Three"; "One"]%string = Views views
    /\ map fst views = ["Three"; "One"]%string.
Proof.
  destruct (main_display_offered Sample.wide_open Sample.one_three_five
              ["Three"; "One"]%string) as [views [H1 [H2 _]]].
  - discriminate.
  - intros b [<-|[<-|[]]]; vm_compute; auto.
  - exists views. split; [exact H1 | exact H2].
Defined.

(* ================================================================== *)
(** * The view and the summary on the same frame *)

Lemma round_half_even_comp x y : Qeq x y -> round_half_even x = round_half_even y.
Proof.
  intros H. unfold round_half_even.
  destruct x as [n d], y as [n' d']. unfold Qeq in H. cbn [Qnum Qden] in *.
  pose proof (Pos2Z.is_pos d) as Hd. pose proof (Pos2Z.is_pos d') as Hd'.
  set (D := Zpos d) in *. set (D' := Zpos d') in *.
  assert (Hf : (n / D = n' / D')%Z).
  { pose proof (Z.mod_pos_bound n D Hd) as Hb.
    pose proof (Z.div_mod n D ltac:(lia)) as Hdm.
    assert (E : (D * (n' - D' * (n / D)) = D' * (n mod D))%Z) by nia.
    apply (Z.div_unique_pos n' D' (n / D) (n' - D' * (n / D))); [|lia].
    split; nia. }
  assert (Hm : (D' * (n mod D) = D * (n' mod D'))%Z).
  { pose proof (Z.div_mod n D ltac:(lia)).
    pose proof (Z.div_mod n' D' ltac:(lia)). rewrite Hf in *. nia. }
  rewrite <- Hf.
  pose proof (Z.mod_pos_bound n D Hd). pose proof (Z.mod_pos_bound n' D' Hd').
  destruct (Z.ltb_spec (2 * (n mod D)) D), (Z.ltb_spec (2 * (n' mod D')) D');
    try reflexivity; try nia.
  destruct (Z.ltb_spec D (2 * (n mod D))), (Z.ltb_spec D' (2 * (n' mod D')));
    try reflexivity; nia.
Qed.

Lemma round2_comp x y : Qeq x y -> round2 x = round2 y.
Proof.
  intros H. unfold round2.
  rewrite (round_half_even_comp (Qmult x (Qmake 100 1)) (Qmult y (Qmake 100 1))).
  - reflexivity.
  - now rewrite H.
Qed.

Lemma earliest_unique g t t' : earliest g t -> earliest g t' -> t = t'.
Proof. intros [I B] [I' B']. pose proof (B _ I'). pose proof (B' _ I). lia. Qed.

Lemma latest_unique g t t' : latest g t -> latest g t' -> t = t'.
Proof. intros [I B] [I' B']. pose proof (B _ I'). pose proof (B' _ I). lia. Qed.

Lemma smallest_unique g v v' : smallest g v -> smallest g v' -> Qeq v v'.
Proof. intros [I B] [I' B']. apply Qle_antisym; auto. Qed.

Lemma largest_unique g v v' : largest g v -> largest g v' -> Qeq v v'.
Proof. intros [I B] [I' B']. apply Qle_antisym; auto. Qed.

(** X16: for every buyer of the filtered frame the per-buyer view and the
    buyer's 'Buyer Summary' row show the same first date and the same last
    date, and their minimum (maximum) values are two roundings of one and
    the same value, the smallest (largest) of the buyer's deals: the
    summary rounds it as [numpy] does, the view formats it to two
    decimals. *)
Theorem render_buyer_agrees_with_summary c table b :
  In (Some b) (map Buyer_List (filtered_set c table)) ->
  exists wb r s v1 v2,
    prepare_excel_summary (filtered_set c table) = Some wb
    /\ summary_row wb b = Some r
    /\ render_buyer (filtered_set c table) b = Stats s
    /\ First_Investment s = First_Deal_Date r
    /\ Most_Recent_Investment s = Last_Deal_Date r
    /\ smallest (group b (filtered_set c table)) v1
    /\ largest (group b (filtered_set c table)) v2
    /\ Min_Deal_Value r = Some (np_round2 v1)
    /\ Shown_Min_Deal_Value s = Some (round2 v1)
    /\ Max_Deal_Value r = Some (np_round2 v2)
    /\ Shown_Max_Deal_Value s = Some (round2 v2).
Proof.
  intros Hb.
  pose proof (filtered_set_complete c table) as Hc.
  destruct (prepare_excel_summary_complete _ Hc) as [rs [_ [Hp Hf]]].
  destruct (agg_complete _ b Hc Hb)
    as [a1 [a2 [w1 [w2 [Ha [A1 [A2 [A3 A4]]]]]]]].
  destruct (render_buyer_complete _ b Hc Hb)
    as [t1 [t2 [v1 [v2 [E [_ [B1 [B2 [B3 B4]]]]]]]]].
  eexists. eexists. eexists. exists w1, w2.
  split; [exact Hp|].
  split; [unfold summary_row; cbn [Buyer_Summary]; rewrite (Hf b Hb); exact Ha|].
  split; [exact E|].
  cbn [First_Investment Most_Recent_Investment Shown_Min_Deal_Value
       Shown_Max_Deal_Value First_Deal_Date Last_Deal_Date Min_Deal_Value
       Max_Deal_Value].
  rewrite (earliest_unique _ _ _ A1 B1), (latest_unique _ _ _ A2 B2).
  rewrite (round2_comp _ _ (smallest_unique _ _ _ A3 B3)).
  rewrite (round2_comp _ _ (largest_unique _ _ _ A4 B4)).
  split; [reflexivity|]. split; [reflexivity|].
  split; [exact A3|]. split; [exact A4|].
  repeat split.
Qed.

Lemma render_buyer_agrees_with_summary_witness :
  exists wb r s v1 v2,
    prepare_excel_summary (filtered_set Sample.wide_open Sample.half_cents)
    = Some wb
    /\ summary_row wb "Alpha" = Some r
    /\ render_buyer (filtered_set Sample.wide_open Sample.half_cents) "Alpha"
       = Stats s
    /\ First_Investment s = First_Deal_Date r
    /\ Most_Recent_Investment s = Last_Deal_Date r
    /\ smallest (group "Alpha"
                   (filtered_set Sample.wide_open Sample.half_cents)) v1
    /\ largest (group "Alpha"
                  (filtered_set Sample.wide_open Sample.half_cents)) v2
    /\ Min_Deal_Value r = Some (np_round2 v1)
    /\ Shown_Min_Deal_Value s = Some (round2 v1)
    /\ Max_Deal_Value r = Some (np_round2 v2)
    /\ Shown_Max_Deal_Value s = Some (round2 v2).
Proof.
  apply (render_buyer_agrees_with_summary Sample.wide_open
           Sample.half_cents "Alpha").
  vm_compute. left. reflexivity.
Defined.

(* ================================================================== *)
(** * More on the colour pass and the headers *)

Lemma slot_filter col j n :
  forall k,
    3 * j + 2 <= col <= 3 * j + 4 ->
    filter (fun f => (min_col f <=? col) && (col <=? max_col f))
           (map (fun i => fill_at (3 * i + 1)) (seq k n))
    = if (k <=? j) && (j <? k + n) then [fill_at (3 * j + 1)] else [].
Proof.
  induction n as [|n IH]; intros k Hc.
  - simpl. destruct (Nat.leb_spec k j), (Nat.ltb_spec j (k + 0));
      simpl; try reflexivity; lia.
  - cbn [seq map filter]. rewrite (IH (S k) Hc).
    cbn [fill_at min_col max_col].
    destruct (Nat.leb_spec (3 * k + 1 + 1) col),
             (Nat.leb_spec col (3 * k + 1 + 3)); cbn [andb].
    + assert (k = j) by lia. subst k.
      destruct (Nat.leb_spec (S j) j); [lia|]. cbn [andb].
      destruct (Nat.leb_spec j j); [|lia].
      destruct (Nat.ltb_spec j (j + S n)); [reflexivity | lia].
    + destruct (Nat.leb_spec (S k) j), (Nat.ltb_spec j (S k + n)),
        (Nat.leb_spec k j), (Nat.ltb_spec j (k + S n));
        cbn [andb]; try reflexivity; lia.
    + destruct (Nat.leb_spec (S k) j), (Nat.ltb_spec j (S k + n)),
        (Nat.leb_spec k j), (Nat.ltb_spec j (k + S n));
        cbn [andb]; try reflexivity; lia.
    + lia.
Qed.

Lemma fills_skip_first_column m :
  filter (fun f => (min_col f <=? 1) && (1 <=? max_col f)) (fills (1 + 3 * m))
  = [].
Proof.
  rewrite fills_slots. induction (seq 0 m) as [|i l IH]; [reflexivity|].
  cbn [map filter fill_at min_col max_col].
  destruct (Nat.leb_spec (3 * i + 1 + 1) 1); [lia|]. exact IH.
Qed.

Lemma slot_color_index j :
  start_color (fill_at (3 * j + 1))
  = PyStr.tail (nth ((3 * j + 1) mod 4) light_colors EmptyString).
Proof. rewrite fill_at_slot. reflexivity. Qed.

(** X17: in a details sheet with m deal-triple groups the colour pass
    gives every cell of group j one colour, the one the loop picks at
    i = 3*j+1, and leaves the buyer-name column without fill; two
    neighbouring groups never get the same colour, and the colours repeat
    every four groups. *)
Theorem color_pass_groups m j col :
  j < m ->
  slot_min_col j <= col <= slot_max_col j ->
  fill_of_column (fills (1 + 3 * m)) col
  = Some (start_color (fill_at (3 * j + 1)))
  /\ fill_of_column (fills (1 + 3 * m)) 1 = None
  /\ start_color (fill_at (3 * j + 1)) <> start_color (fill_at (3 * (j + 1) + 1))
  /\ start_color (fill_at (3 * (j + 4) + 1)) = start_color (fill_at (3 * j + 1)).
Proof.
  intros Hj Hc. unfold slot_min_col, slot_max_col in Hc.
  split; [|split; [|split]].
  - unfold fill_of_column. rewrite filter_rev, fills_slots.
    rewrite (slot_filter col j m 0 Hc).
    destruct (Nat.leb_spec 0 j); [|lia].
    destruct (Nat.ltb_spec j (0 + m)); [|lia]. reflexivity.
  - unfold fill_of_column. rewrite filter_rev, fills_skip_first_column.
    reflexivity.
  - rewrite !slot_color_index.
    replace (3 * (j + 1) + 1) with (3 * j + 1 + 3) by lia.
    rewrite <- (Nat.Div0.add_mod_idemp_l (3 * j + 1) 3 4).
    pose proof (Nat.mod_upper_bound (3 * j + 1) 4 ltac:(lia)) as Hb.
    destruct ((3 * j + 1) mod 4) as [|[|[|[|k]]]]; try lia;
      vm_compute; discriminate.
  - rewrite !slot_color_index.
    replace (3 * (j + 4) + 1) with (3 * j + 1 + 3 * 4) by lia.
    rewrite Nat.Div0.mod_add. reflexivity.
Qed.

Lemma color_pass_groups_witness :
  fill_of_column (fills (1 + 3 * 5)) 9 = Some "eafbea"%string
  /\ fill_of_column (fills (1 + 3 * 5)) 1 = None.
Proof.
  destruct (color_pass_groups 5 2 9) as [H1 [H2 _]].
  - lia.
  - unfold slot_min_col, slot_max_col. lia.
  - split; [exact H1 | exact H2].
Defined.

Lemma nth_error_headers (n : nat) :
  forall s j,
    j < n ->
    let l := flat_map (fun i => [HDate i; HDeal i; HDealValue i]) (seq s n) in
    nth_error l (3 * j) = Some (HDate (s + j))
    /\ nth_error l (3 * j + 1) = Some (HDeal (s + j))
    /\ nth_error l (3 * j + 2) = Some (HDealValue (s + j)).
Proof.
  induction n as [|n IH]; intros s j Hj; [lia|].
  cbn zeta. cbn [seq flat_map].
  destruct j as [|j].
  - rewrite Nat.add_0_r. repeat split.
  - replace (3 * S j) with (S (S (S (3 * j)))) by lia.
    replace (s + S j) with (S s + j) by lia.
    apply (IH (S s) j). lia.
Qed.

Lemma col_headers_shape m :
  col_headers (1 + 3 * m)
  = HBuyerName
      :: flat_map (fun i => [HDate i; HDeal i; HDealValue i]) (seq 1 m).
Proof.
  unfold col_headers.
  replace (1 + 3 * m - 1) with (m * 3) by lia.
  now rewrite Nat.div_mul.
Qed.

Lemma prepare_excel_summary_columns data wb :
  prepare_excel_summary data = Some wb ->
  columns (Buyer_Deal_Details wb) = col_headers (1 + 3 * max_deals data).
Proof.
  unfold prepare_excel_summary. intros H.
  destruct (summary data); [|discriminate]. cbn [bind] in H.
  rewrite deals_df_shape in H. cbn [bind] in H.
  injection H as <-. reflexivity.
Qed.

(** X18: the details sheet is headed 'Buyer Name' and then, for the k-th
    deal-triple group (k from 1 to the largest number of deals a buyer
    holds), 'Date k', 'Deal k', 'Deal Value k': the header over the cells
    of group k carries the number k. *)
Theorem details_headers data wb :
  prepare_excel_summary data = Some wb ->
  nth_error (columns (Buyer_Deal_Details wb)) 0 = Some HBuyerName
  /\ forall j,
       j < max_deals data ->
       nth_error (columns (Buyer_Deal_Details wb)) (1 + 3 * j)
       = Some (HDate (j + 1))
       /\ nth_error (columns (Buyer_Deal_Details wb)) (2 + 3 * j)
          = Some (HDeal (j + 1))
       /\ nth_error (columns (Buyer_Deal_Details wb)) (3 + 3 * j)
          = Some (HDealValue (j + 1)).
Proof.
  intros H. rewrite (prepare_excel_summary_columns data wb H).
  rewrite col_headers_shape.
  split; [reflexivity|].
  intros j Hj.
  destruct (nth_error_headers (max_deals data) 1 j Hj) as [H1 [H2 H3]].
  replace (j + 1) with (1 + j) by lia.
  replace (2 + 3 * j) with (S (3 * j + 1)) by lia.
  replace (3 + 3 * j) with (S (3 * j + 2)) by lia.
  change (1 + 3 * j) with (S (3 * j)).
  cbn [nth_error]. repeat split; assumption.
Qed.

Lemma details_headers_witness :
  exists wb,
    prepare_excel_summary (filtered_set Sample.wide_open Sample.one_three_five)
    = Some wb
    /\ nth_error (columns (Buyer_Deal_Details wb)) 0 = Some HBuyerName.
Proof.
  destruct (prepare_excel_summary
              (filtered_set Sample.wide_open Sample.one_three_five))
    as [wb|] eqn:E; [|vm_compute in E; discriminate].
  exists wb. split; [reflexivity|].
  apply (details_headers _ wb E).
Defined.

(* ================================================================== *)
(** * Co-investors and duplicate rows *)

Lemma map_filter_commute {A B : Type} (f : A -> B) (g : A -> bool)
    (h : B -> bool) (l : list A) :
  map f (filter g (filter (fun a => h (f a)) l))
  = filter h (map f (filter g l)).
Proof.
  induction l as [|a l IH]; [reflexivity|].
  cbn [filter].
  destruct (h (f a)) eqn:Eh, (g a) eqn:Eg; cbn [filter map];
    rewrite ?Eg, ?Eh; cbn [map filter]; rewrite ?Eh; congruence.
Qed.

Lemma dropna_map_Some {A : Type} (l : list A) : dropna (map Some l) = l.
Proof. induction l; simpl; congruence. Qed.

(** X19: for a row of the loaded frame shown under its buyer, no listed
    co-investor is the buyer itself, and the listed co-investors, once
    trimmed and without the empty ones, are the buyers of the other rows
    the same deal was expanded into, in the order of the buyer cell. *)
Theorem co_investors_other_buyers table d b :
  In d (load_data table) ->
  Buyer_List d = Some b ->
  (forall p, In p (co_investors d b) -> PyStr.strip p <> b)
  /\ map PyStr.strip
       (filter (fun p => PyStr.truthy (PyStr.strip p)) (co_investors d b))
     = filter (fun t => negb (String.eqb t b))
         (dropna (map Buyer_List (rows_of (index d) (load_data table)))).
Proof.
  intros Hd Hb. split.
  - intros p Hp. unfold co_investors in Hp. apply filter_In in Hp.
    destruct Hp as [_ Hp]. apply negb_true_iff in Hp.
    now apply String.eqb_neq.
  - destruct (load_rows_source table 0 d Hd) as [j [r [Hi [Hn He]]]].
    simpl in Hi, He. rewrite Hi, (rows_of_load_data table j r Hn).
    rewrite explode_row_buyers.
    pose proof (explode_row_buyer j r d He) as Ht. rewrite Hb in Ht.
    assert (Hraw : Buyers d = src_Buyers r).
    { unfold explode_row in He. apply in_map_iff in He.
      destruct He as [x [<- _]]. reflexivity. }
    assert (Hstr : str_of_cell (Buyers d) = fillna_str (src_Buyers r)).
    { rewrite Hraw. destruct (src_Buyers r) as [x|]; [reflexivity|].
      simpl in Ht. contradiction. }
    unfold explode_cell.
    destruct (buyer_tokens (fillna_str (src_Buyers r))) as [|t ts] eqn:Et;
      [contradiction|].
    rewrite <- Et, dropna_map_Some.
    unfold co_investors, buyer_tokens. rewrite Hstr.
    apply (map_filter_commute PyStr.strip
             (fun p => PyStr.truthy (PyStr.strip p))
             (fun t => negb (String.eqb t b))).
Qed.

Lemma co_investors_other_buyers_witness :
  map PyStr.strip
    (filter (fun p => PyStr.truthy (PyStr.strip p))
       (co_investors (expand_row 0 Sample.three_buyers (Some "Beta"%string))
          "Beta"))
  = ["Alpha"; "Gamma"]%string.
Proof.
  destruct (co_investors_other_buyers [Sample.three_buyers]
              (expand_row 0 Sample.three_buyers (Some "Beta"%string)) "Beta")
    as [_ H].
  - vm_compute. right. left. reflexivity.
  - reflexivity.
  - exact H.
Defined.

Lemma opt_eqb_sym {A : Type} (eqb : A -> A -> bool) (x y : option A) :
  (forall a b, eqb a b = eqb b a) -> opt_eqb eqb x y = opt_eqb eqb y x.
Proof. intros H. destruct x, y; simpl; auto. Qed.

Lemma same_buyer_deal_sym x y : same_buyer_deal x y = same_buyer_deal y x.
Proof.
  unfold same_buyer_deal, same_deal.
  rewrite (opt_eqb_sym String.eqb (Buyer_List x)) by apply String.eqb_sym.
  rewrite (opt_eqb_sym String.eqb (Target_Company_Name x))
    by apply String.eqb_sym.
  rewrite (opt_eqb_sym Z.eqb (Date x)) by apply Z.eqb_sym.
  rewrite (opt_eqb_sym Qeq_bool (Deal_Value x)) by apply Qeq_bool_comm.
  reflexivity.
Qed.

Lemma drop_duplicates_from_fresh same l :
  forall seen y s,
    In y (drop_duplicates_from same seen l) -> In s seen -> same y s = false.
Proof.
  induction l as [|r l IH]; simpl; intros seen y s Hy Hs; [contradiction|].
  destruct (existsb (same r) seen) eqn:E; [eauto|].
  destruct Hy as [<-|Hy].
  - destruct (same r s) eqn:Er; [|reflexivity].
    rewrite <- E. symmetry. apply existsb_exists. eauto.
  - apply (IH (r :: seen)); [exact Hy | now right].
Qed.

Lemma drop_duplicates_from_pairs same l :
  forall seen,
    ForallOrdPairs (fun x y => same y x = false)
      (drop_duplicates_from same seen l).
Proof.
  induction l as [|r l IH]; simpl; intros seen; [constructor|].
  destruct (existsb (same r) seen); [apply IH|].
  constructor; [|apply IH].
  apply Forall_forall. intros y Hy.
  apply (drop_duplicates_from_fresh same l (r :: seen)); [exact Hy | now left].
Qed.

Lemma drop_duplicates_from_subsequence same l :
  forall seen, subsequence (drop_duplicates_from same seen l) l.
Proof.
  induction l as [|r l IH]; simpl; intros seen; [constructor|].
  destruct (existsb (same r) seen); constructor; apply IH.
Qed.

(** X20: after line 58 no two rows of the frame agree on buyer, target,
    date and value; the rows kept are in their input order, and every
    input row agrees on the four cells with a row that is kept. *)
Theorem drop_duplicates_distinct data :
  ForallOrdPairs (fun x y => same_buyer_deal x y = false)
    (drop_duplicates same_buyer_deal data)
  /\ subsequence (drop_duplicates same_buyer_deal data) data
  /\ forall x, In x data ->
       exists y, In y (drop_duplicates same_buyer_deal data)
                 /\ same_buyer_deal x y = true.
Proof.
  split; [|split].
  - pose proof (drop_duplicates_from_pairs same_buyer_deal data []) as H.
    unfold drop_duplicates.
    induction H as [|a l Ha Hl IH]; constructor; [|exact IH].
    apply Forall_forall. intros y Hy. rewrite Forall_forall in Ha.
    rewrite same_buyer_deal_sym. now apply Ha.
  - apply drop_duplicates_from_subsequence.
  - intros x Hx.
    apply (drop_duplicates_represents same_buyer_deal data x
             same_buyer_deal_refl Hx).
Qed.
